(** * A/B testing router of the churn-prediction service

    Shallow embedding of [src/api/ab_testing.py] (class [ABTester]), of the
    start-up hook and the [/predict], [/ab-test/stats] and [/ab-test/reset]
    handlers of [src/api/main.py], and of [ChurnPredictor.predict] of
    [src/models/predict.py], followed by the properties of the routing and
    statistics subsystem.

    Python floats are IEEE-754 binary64 values: they are modelled by the
    kernel's primitive floats, so that [0.5 + 0.495], [2 / 3 * 100] and the
    comparisons of the source evaluate here to what CPython computes.
    Insertion-ordered dictionaries whose iteration order the code relies on
    ([traffic_split]) are association lists; dictionaries that are only
    looked up ([models], the per-version statistics) are [gmap]s. *)

From Stdlib Require Import Floats ZArith Uint63.
From stdpp Require Import gmap strings list pretty.

Set Warnings "-inexact-float".
Local Open Scope Z_scope.

(** ** Python values, exceptions and effects *)

(** The exceptions the modelled code can raise.  [ValueError] carries the
    text of the f-string and the float it interpolates; [Raised] stands for
    whatever an external collaborator (a model's [predict]) raises;
    [HTTPException] carries its status code and the exception whose [str]
    is appended to ["Prediction failed: "] in its detail. *)
Inductive exn : Type :=
  | ValueError (msg : string) (got : float)
  | KeyError (key : string)
  | IndexError (msg : string)
  | AttributeError (msg : string)
  | ZeroDivisionError (msg : string)
  | Raised (msg : string)
  | HTTPException (status_code : Z) (cause : exn).

(** A call either raises or returns. *)
Inductive result (A : Type) : Type :=
  | Raise (e : exn)
  | Return (a : A).
Arguments Raise {A} e.
Arguments Return {A} a.

(** A method reads and mutates the object (or the module globals) it runs
    on.  A raised exception leaves the mutations done before it in place,
    as in Python, so the state is returned on both outcomes. *)
Definition M (S A : Type) : Type := S -> result A * S.

Definition ret {S A} (a : A) : M S A := fun s => (Return a, s).
Definition raise {S A} (e : exn) : M S A := fun s => (Raise e, s).
Definition bind {S A B} (c : M S A) (k : A -> M S B) : M S B :=
  fun s => match c s with
           | (Return a, s') => k a s'
           | (Raise e, s') => (Raise e, s')
           end.
Definition get {S} : M S S := fun s => (Return s, s).
Definition put {S} (s : S) : M S unit := fun _ => (Return tt, s).
Definition lift {S A} (r : result A) : M S A := fun s => (r, s).

(** [try: body except Exception as e: handler e]. *)
Definition try_except {S A} (body : M S A) (handler : exn -> M S A) : M S A :=
  fun s => match body s with
           | (Return a, s') => (Return a, s')
           | (Raise e, s') => handler e s'
           end.

Notation "'let*' x ':=' c 'in' k" := (bind c (fun x => k))
  (at level 10, x pattern, c at level 100, k at level 200).

(** [for x in xs: acc = body acc x], stopping at the first exception. *)
Fixpoint for_each {S A B} (xs : list A) (acc : B) (body : B -> A -> M S B) : M S B :=
  match xs with
  | [] => ret acc
  | x :: xs' => let* acc' := body acc x in for_each xs' acc' body
  end.

(** An insertion-ordered [dict] with string keys: the list of its items in
    insertion order. *)
Definition dict (V : Type) : Type := list (string * V).
Definition keys {V} (d : dict V) : list string := d.*1.
Definition values {V} (d : dict V) : list V := d.*2.
Definition items {V} (d : dict V) : list (string * V) := d.

Definition len {A} (l : list A) : Z := Z.of_nat (length l).

(** Conversion of a Python [int] to [float], as the mixed-mode arithmetic
    operators do it.  The ints converted here are list lengths, sums of
    class labels and the literals 100 and 1000: below 2^53 in magnitude,
    where the conversion is exact. *)
Definition float_of_int (z : Z) : float :=
  match z with
  | Z0 => 0%float
  | Zpos _ => PrimFloat.of_uint63 (Uint63.of_Z z)
  | Zneg _ => PrimFloat.opp (PrimFloat.of_uint63 (Uint63.of_Z (Z.abs z)))
  end.

(** [a / b] on two ints (true division): [ZeroDivisionError] when [b] is
    the integer zero, else the quotient of the converted operands. *)
Definition int_truediv (a b : Z) : result float :=
  if Z.eqb b 0 then Raise (ZeroDivisionError "division by zero")
  else Return (float_of_int a / float_of_int b)%float.

(** [x / n] with [x] a float and [n] an int: the int is converted, and a
    zero divisor raises. *)
Definition float_truediv_int (x : float) (n : Z) : result float :=
  if Z.eqb n 0 then Raise (ZeroDivisionError "float division by zero")
  else Return (x / float_of_int n)%float.

(** [sum(xs)] on floats: the items are added from left to right to the
    start value [0].  On the empty list Python returns the int [0], which
    compares with floats as [0.0] does.  (CPython 3.12 and later carry a
    correction term for the rounding errors of these additions; on lists of
    one or two items, and wherever the additions are exact, the result is
    the one computed here.) *)
Definition sum_float (xs : list float) : float :=
  fold_left PrimFloat.add xs 0%float.

(** [sum(xs)] on ints. *)
Definition sum_int (xs : list Z) : Z := fold_left Z.add xs 0.

(** [min(xs)] and [max(xs)]: the first item is the candidate, and a later
    item replaces it when it compares strictly below (above) it; the empty
    sequence raises [ValueError]. *)
Definition py_min (xs : list float) : result float :=
  match xs with
  | [] => Raise (ValueError "min() arg is an empty sequence" 0%float)
  | x :: xs' =>
      Return (fold_left (fun m y => if PrimFloat.ltb y m then y else m) xs' x)
  end.

Definition py_max (xs : list float) : result float :=
  match xs with
  | [] => Raise (ValueError "max() arg is an empty sequence" 0%float)
  | x :: xs' =>
      Return (fold_left (fun m y => if PrimFloat.ltb m y then y else m) xs' x)
  end.

(** ** [ab_testing.py]: class [ABTester] *)

(** The dict a model's [predict] returns ([ChurnPredictor.predict] in
    [src/models/predict.py]). *)
Module Prediction.
Record t : Type := mk {
  model_version : string;
  prediction : Z;
  churn_probability : float;
  will_churn : bool;
  confidence : float
}.
End Prediction.

(** One entry of [request_log], the dict built by [log_request]. *)
Module LogEntry.
Record t : Type := mk {
  request_id : string;
  timestamp : string;
  model_version : string;
  prediction : Z;
  churn_probability : float;
  latency_ms : float
}.
End LogEntry.

(** The value of [stats["models"][model_version]]. *)
Module ModelStatistics.
Record t : Type := mk {
  request_count : Z;
  traffic_percentage : float;
  avg_latency_ms : float;
  churn_rate : float;
  min_latency_ms : float;
  max_latency_ms : float
}.
End ModelStatistics.

(** The dict [get_statistics] returns. *)
Module Statistics.
Record t : Type := mk {
  total_requests : Z;
  models : gmap string ModelStatistics.t
}.
End Statistics.

(** The attributes of an [ABTester] instance. *)
Record ABTester : Type := mkABTester {
  traffic_split : dict float;
  request_log : list LogEntry.t
}.

Definition default_traffic_split : dict float :=
  [("v1", 0.5%float); ("v2", 0.5%float)].

(** [traffic_split or {"v1": 0.5, "v2": 0.5}]: [None] and the empty dict
    are falsy. *)
Definition or_default (given : option (dict float)) : dict float :=
  match given with
  | None => default_traffic_split
  | Some [] => default_traffic_split
  | Some d => d
  end.

(** The condition of the validation: [0.99 <= total <= 1.01]. *)
Definition within_tolerance (total : float) : bool :=
  (0.99 <=? total)%float && (total <=? 1.01)%float.

(** [ABTester.__init__]: the instance, or the [ValueError] it raises;
    [given] is the [traffic_split] argument. *)
Definition __init__ (given : option (dict float)) : result ABTester :=
  let self := {| traffic_split := or_default given; request_log := [] |} in
  let total := sum_float (values self.(traffic_split)) in
  if negb (within_tolerance total)
  then Raise (ValueError "Traffic split must sum to 1.0, got " total)
  else Return self.

(** The loop of [select_model]: [cumulative += split], then the test
    [rand_value <= cumulative]; [None] when the loop runs to its end. *)
Fixpoint select_loop (rand_value cumulative : float) (its : list (string * float))
  : option string :=
  match its with
  | [] => None
  | (model_version, split) :: its' =>
      let cumulative := (cumulative + split)%float in
      if (rand_value <=? cumulative)%float then Some model_version
      else select_loop rand_value cumulative its'
  end.

(** [list(d.keys())[0]]. *)
Definition first_key {V} (d : dict V) : result string :=
  match keys d with
  | [] => Raise (IndexError "list index out of range")
  | k :: _ => Return k
  end.

(** [ABTester.select_model]; [rand_value] is the value [random.random()]
    returns in this call, and [user_id] is not used by the source. *)
Definition select_model (rand_value : float) (user_id : option string)
  : M ABTester string :=
  let* self := get in
  match select_loop rand_value 0%float (items self.(traffic_split)) with
  | Some model_version => ret model_version
  | None => lift (first_key self.(traffic_split))
  end.

(** [ABTester.log_request]; [now] is the text [datetime.now().isoformat()]
    returns in this call. *)
Definition log_request (model_version : string) (prediction : Prediction.t)
    (latency_ms : float) (request_id : string) (now : string) : M ABTester unit :=
  let log_entry := {|
    LogEntry.request_id := request_id;
    LogEntry.timestamp := now;
    LogEntry.model_version := model_version;
    LogEntry.prediction := Prediction.prediction prediction;
    LogEntry.churn_probability := Prediction.churn_probability prediction;
    LogEntry.latency_ms := latency_ms
  |} in
  let* self := get in
  put {| traffic_split := self.(traffic_split);
         request_log := self.(request_log) ++ [log_entry] |}.

(** [[r for r in request_log if r["model_version"] == model_version]]. *)
Definition model_requests_of (request_log : list LogEntry.t) (model_version : string)
  : list LogEntry.t :=
  filter (fun r => LogEntry.model_version r = model_version) request_log.

(** The body of the loop of [get_statistics] for one key of
    [traffic_split]: the per-model entry is computed and stored only
    under the guard [if model_requests:]. *)
Definition model_statistics_step (request_log : list LogEntry.t)
    (stats : Statistics.t) (model_version : string) : M ABTester Statistics.t :=
  let model_requests := model_requests_of request_log model_version in
  match model_requests with
  | [] => ret stats
  | _ :: _ =>
      let latencies := LogEntry.latency_ms <$> model_requests in
      let predictions := LogEntry.prediction <$> model_requests in
      let request_count := len model_requests in
      let* share := lift (int_truediv (len model_requests) (len request_log)) in
      let traffic_percentage := (share * float_of_int 100)%float in
      let* avg_latency_ms := lift (float_truediv_int (sum_float latencies) (len latencies)) in
      let* rate := lift (int_truediv (sum_int predictions) (len predictions)) in
      let churn_rate := (rate * float_of_int 100)%float in
      let* min_latency_ms := lift (py_min latencies) in
      let* max_latency_ms := lift (py_max latencies) in
      ret {| Statistics.total_requests := Statistics.total_requests stats;
             Statistics.models :=
               <[model_version :=
                   {| ModelStatistics.request_count := request_count;
                      ModelStatistics.traffic_percentage := traffic_percentage;
                      ModelStatistics.avg_latency_ms := avg_latency_ms;
                      ModelStatistics.churn_rate := churn_rate;
                      ModelStatistics.min_latency_ms := min_latency_ms;
                      ModelStatistics.max_latency_ms := max_latency_ms |}]>
               (Statistics.models stats) |}
  end.

(** [ABTester.get_statistics]. *)
Definition get_statistics : M ABTester Statistics.t :=
  let* self := get in
  match self.(request_log) with
  | [] => ret {| Statistics.total_requests := 0; Statistics.models := ∅ |}
  | _ :: _ =>
      let stats := {| Statistics.total_requests := len self.(request_log);
                      Statistics.models := ∅ |} in
      for_each (keys self.(traffic_split)) stats
               (model_statistics_step self.(request_log))
  end.

(** [ABTester.reset_logs]. *)
Definition reset_logs : M ABTester unit :=
  let* self := get in
  put {| traffic_split := self.(traffic_split); request_log := [] |}.

(** ** [main.py]: the request handlers *)

(** The request body of [/predict]. *)
Module CustomerData.
Record t : Type := mk {
  gender : string;
  SeniorCitizen : Z;
  Partner : string;
  Dependents : string;
  tenure : Z;
  PhoneService : string;
  MultipleLines : string;
  InternetService : string;
  OnlineSecurity : string;
  OnlineBackup : string;
  DeviceProtection : string;
  TechSupport : string;
  StreamingTV : string;
  StreamingMovies : string;
  Contract : string;
  PaperlessBilling : string;
  PaymentMethod : string;
  MonthlyCharges : float;
  TotalCharges : float
}.
End CustomerData.

(** The response body of [/predict]. *)
Module PredictionResponse.
Record t : Type := mk {
  request_id : string;
  model_version : string;
  prediction : Z;
  churn_probability : float;
  will_churn : bool;
  confidence : float;
  latency_ms : float
}.
End PredictionResponse.

(** A loaded [ChurnPredictor].  Its [predict] runs the deserialized
    scikit-learn model, which is outside the repository: it is any function
    from the customer's fields to a prediction dict or a raised exception. *)
Module ChurnPredictor.
Record t : Type := mk {
  model_version : string;
  predict : CustomerData.t -> result Prediction.t
}.
End ChurnPredictor.

(** What the handler sends to the Prometheus client: [labels(...).inc()] on
    a counter and [labels(...).observe(v)] on a histogram, in call order.
    With the label names the metrics declare and string label values, as
    here, these calls do not raise. *)
Inductive MetricEvent : Type :=
  | Inc (metric : string) (labels : list string)
  | Observe (metric : string) (labels : list string) (value : float).

(** The module globals of [main.py]: [models], [ab_tester] ([None] until
    the lifespan hook has run) and the state of the metrics registry. *)
Record Globals : Type := mkGlobals {
  models : gmap string ChurnPredictor.t;
  ab_tester : option ABTester;
  metrics : list MetricEvent
}.

(** What a call of [predict_churn] reads from its environment: the value of
    [uuid.uuid4()], of [random.random()], of the two [time.time()] calls
    and of [datetime.now().isoformat()]. *)
Record Ambient : Type := mkAmbient {
  uuid4 : string;
  random : float;
  time_before : float;
  time_after : float;
  now_isoformat : string
}.

(** [ab_tester.method(...)]: an [AttributeError] while [ab_tester] is
    [None]; otherwise the method runs on the shared instance, whose
    mutations are seen through the global. *)
Definition on_ab_tester {A} (name : string) (method : M ABTester A) : M Globals A :=
  fun g =>
    match g.(ab_tester) with
    | None =>
        (Raise (AttributeError ("'NoneType' object has no attribute '" +:+ name +:+ "'")), g)
    | Some self =>
        let '(r, self') := method self in
        (r, {| models := g.(models); ab_tester := Some self'; metrics := g.(metrics) |})
    end.

(** [models[selected_model]]. *)
Definition models_getitem (selected_model : string) : M Globals ChurnPredictor.t :=
  let* g := get in
  match g.(models) !! selected_model with
  | Some predictor => ret predictor
  | None => raise (KeyError selected_model)
  end.

Definition emit (ev : MetricEvent) : M Globals unit :=
  let* g := get in
  put {| models := g.(models); ab_tester := g.(ab_tester);
         metrics := g.(metrics) ++ [ev] |}.

(** [predict_churn], the handler of [POST /predict].  The fields of the
    prediction dict have the types [ChurnPredictor.predict] converts them
    to, so building the [PredictionResponse] after the request is logged
    does not fail validation. *)
Definition predict_churn (env : Ambient) (customer : CustomerData.t)
    (user_id : option string) : M Globals PredictionResponse.t :=
  try_except
    (let request_id := env.(uuid4) in
     let* selected_model :=
       on_ab_tester "select_model" (select_model env.(random) user_id) in
     let start_time := env.(time_before) in
     let* predictor := models_getitem selected_model in
     let* prediction := lift (ChurnPredictor.predict predictor customer) in
     let latency_ms := ((env.(time_after) - start_time) * float_of_int 1000)%float in
     let* _ := emit (Inc "predictions_total" [selected_model]) in
     let* _ := emit (Observe "prediction_latency_seconds" [selected_model]
                             (latency_ms / float_of_int 1000)%float) in
     let* _ := emit (Inc "churn_predictions_total"
                         [selected_model; pretty (Prediction.prediction prediction)]) in
     let* _ := on_ab_tester "log_request"
                 (log_request selected_model prediction latency_ms request_id
                              env.(now_isoformat)) in
     ret {| PredictionResponse.request_id := request_id;
            PredictionResponse.model_version := selected_model;
            PredictionResponse.prediction := Prediction.prediction prediction;
            PredictionResponse.churn_probability := Prediction.churn_probability prediction;
            PredictionResponse.will_churn := Prediction.will_churn prediction;
            PredictionResponse.confidence := Prediction.confidence prediction;
            PredictionResponse.latency_ms := latency_ms |})
    (fun e => raise (HTTPException 500 e)).

(** [get_ab_stats], the handler of [GET /ab-test/stats]. *)
Definition get_ab_stats : M Globals Statistics.t :=
  on_ab_tester "get_statistics" get_statistics.

(** [reset_ab_stats], the handler of [POST /ab-test/reset]. *)
Definition reset_ab_stats : M Globals unit :=
  on_ab_tester "reset_logs" reset_logs.

(** The request log as the handlers see it: empty while no tester exists. *)
Definition recorded (g : Globals) : list LogEntry.t :=
  match g.(ab_tester) with
  | Some self => self.(request_log)
  | None => []
  end.

(** [lifespan], up to its [yield]: the start-up hook.  [load version]
    stands for the constructor call [ChurnPredictor(version)], which reads
    the model artifacts from disk and raises when that fails; the
    [except] clause prints and re-raises.  The tester is assigned only
    after both models are stored. *)
Definition models_setitem (version : string) (predictor : ChurnPredictor.t)
  : M Globals unit :=
  let* g := get in
  put {| models := <[version := predictor]> g.(models);
         ab_tester := g.(ab_tester); metrics := g.(metrics) |}.

Definition set_ab_tester (tester : ABTester) : M Globals unit :=
  let* g := get in
  put {| models := g.(models); ab_tester := Some tester; metrics := g.(metrics) |}.

Definition lifespan (load : string -> result ChurnPredictor.t) : M Globals unit :=
  let* _ :=
    try_except
      (let* v1 := lift (load "v1") in
       let* _ := models_setitem "v1" v1 in
       let* v2 := lift (load "v2") in
       models_setitem "v2" v2)
      (fun e => raise e) in
  let* tester := lift (__init__ (Some [("v1", 0.5%float); ("v2", 0.5%float)])) in
  set_ab_tester tester.

(** ** [predict.py]: [ChurnPredictor.predict] *)

(** The artifacts [_load_artifacts] reads: the label encoders and the
    scaler act through [preprocess_input], the classifier through
    [predict] and [predict_proba].  They are scikit-learn and pandas
    objects; each is a function that returns or raises.  [model_predict]
    is element 0 of the classifier's [predict], [model_predict_proba] is
    row 0 of its [predict_proba], the class probabilities of the one
    customer. *)
Record Artifacts : Type := mkArtifacts {
  features : Type;
  preprocess_input : CustomerData.t -> result features;
  model_predict : features -> result Z;
  model_predict_proba : features -> result (list float)
}.

(** Sequencing of calls that read no state. *)
Definition and_then {A B} (r : result A) (k : A -> result B) : result B :=
  match r with
  | Return a => k a
  | Raise e => Raise e
  end.

(** [xs[i]] on a sequence, for an index that is not negative. *)
Definition getitem {A} (xs : list A) (i : nat) : result A :=
  match xs !! i with
  | Some x => Return x
  | None => Raise (IndexError "index out of bounds")
  end.

(** [ChurnPredictor.predict]: the entries of the returned dict are
    evaluated in the order they are written, [probability[1]] before
    [max(probability)]. *)
Definition predict (a : Artifacts) (model_version : string) (data : CustomerData.t)
  : result Prediction.t :=
  and_then (preprocess_input a data) (fun X =>
  and_then (model_predict a X) (fun prediction =>
  and_then (model_predict_proba a X) (fun probability =>
  and_then (getitem probability 1) (fun churn_probability =>
  let will_churn := Z.eqb prediction 1 in
  and_then (py_max probability) (fun confidence =>
  Return {| Prediction.model_version := model_version;
            Prediction.prediction := prediction;
            Prediction.churn_probability := churn_probability;
            Prediction.will_churn := will_churn;
            Prediction.confidence := confidence |}))))).

(** The predictor object whose [predict] method this is. *)
Definition loaded_predictor (a : Artifacts) (model_version : string) : ChurnPredictor.t :=
  {| ChurnPredictor.model_version := model_version;
     ChurnPredictor.predict := predict a model_version |}.

(** ** Notions the properties are stated with *)

(** The value of [cumulative] after the loop of [select_model] has gone
    through [its], starting from [c]. *)
Definition accumulate (c : float) (its : list (string * float)) : float :=
  fold_left (fun c kw => (c + kw.2)%float) its c.

(** The value of [cumulative] when the test of iteration [i] (counted from
    0) is made. *)
Definition cumulative_at (d : dict float) (i : nat) : float :=
  accumulate 0%float (take (S i) (items d)).

(** A value [random.random()] can return: [0 <= r < 1]. *)
Definition in_unit_interval (r : float) : Prop :=
  (0 <=? r)%float = true /\ (r <? 1)%float = true.

(** A policy some call of the constructor accepted: the [traffic_split] of
    a tester [__init__] returned.  [log_request] and [reset_logs] do not
    touch it, so this is the policy of every tester in use. *)
Definition validated (d : dict float) : Prop :=
  exists given t0, __init__ given = Return t0 /\ traffic_split t0 = d.

(** Some weight of the mapping is below zero. *)
Definition has_negative_weight (d : dict float) : bool :=
  existsb (fun w => (w <? 0)%float) (values d).

(** The records of the log routed to one version, counted. *)
Definition matching (request_log : list LogEntry.t) (model_version : string) : nat :=
  length (model_requests_of request_log model_version).

(** The request count [get_statistics] reports for a version: that of
    its entry in the per-version map, and 0 when it has none. *)
Definition reported_count (stats : Statistics.t) (model_version : string) : Z :=
  from_option ModelStatistics.request_count 0 (Statistics.models stats !! model_version).

(** The latencies of the records routed to one version. *)
Definition latencies_of (request_log : list LogEntry.t) (model_version : string)
  : list float :=
  LogEntry.latency_ms <$> model_requests_of request_log model_version.

(** An entry of the per-version map that sums up the records of the log
    routed to a version: there is such a record, the count is their
    number, and the extreme latencies are [min] and [max] of theirs. *)
Definition summarises (request_log : list LogEntry.t) (model_version : string)
    (e : ModelStatistics.t) : Prop :=
  (0 < matching request_log model_version)%nat
  /\ ModelStatistics.request_count e = Z.of_nat (matching request_log model_version)
  /\ py_min (latencies_of request_log model_version)
     = Return (ModelStatistics.min_latency_ms e)
  /\ py_max (latencies_of request_log model_version)
     = Return (ModelStatistics.max_latency_ms e).

(** The records of the log routed to one of the versions [ks]. *)
Definition routed_within (ks : list string) (request_log : list LogEntry.t)
  : list LogEntry.t :=
  filter (fun r => LogEntry.model_version r ∈ ks) request_log.

(** What a call of [predict_churn] that reaches its end builds from the
    version it selected and the prediction it obtained: the latency it
    measures, the entry it logs, the response it returns and the metric
    events it emits. *)
Definition measured_latency_ms (env : Ambient) : float :=
  ((env.(time_after) - env.(time_before)) * float_of_int 1000)%float.

Definition entry_logged (env : Ambient) (v : string) (p : Prediction.t) : LogEntry.t :=
  {| LogEntry.request_id := env.(uuid4);
     LogEntry.timestamp := env.(now_isoformat);
     LogEntry.model_version := v;
     LogEntry.prediction := Prediction.prediction p;
     LogEntry.churn_probability := Prediction.churn_probability p;
     LogEntry.latency_ms := measured_latency_ms env |}.

Definition response_built (env : Ambient) (v : string) (p : Prediction.t)
  : PredictionResponse.t :=
  {| PredictionResponse.request_id := env.(uuid4);
     PredictionResponse.model_version := v;
     PredictionResponse.prediction := Prediction.prediction p;
     PredictionResponse.churn_probability := Prediction.churn_probability p;
     PredictionResponse.will_churn := Prediction.will_churn p;
     PredictionResponse.confidence := Prediction.confidence p;
     PredictionResponse.latency_ms := measured_latency_ms env |}.

Definition events_emitted (env : Ambient) (v : string) (p : Prediction.t)
  : list MetricEvent :=
  [ Inc "predictions_total" [v];
    Observe "prediction_latency_seconds" [v]
            (measured_latency_ms env / float_of_int 1000)%float;
    Inc "churn_predictions_total" [v; pretty (Prediction.prediction p)] ].

(** The globals after such a call. *)
Definition globals_after_prediction (g : Globals) (t : ABTester) (env : Ambient)
    (v : string) (p : Prediction.t) : Globals :=
  {| models := models g;
     ab_tester := Some {| traffic_split := traffic_split t;
                          request_log := request_log t ++ [entry_logged env v p] |};
     metrics := metrics g ++ events_emitted env v p |}.

(** A call of a method of [ABTester], with its arguments. *)
Inductive Call : Type :=
  | CallSelectModel (rand_value : float) (user_id : option string)
  | CallLogRequest (model_version : string) (prediction : Prediction.t)
                   (latency_ms : float) (request_id now : string)
  | CallGetStatistics
  | CallResetLogs.

(** The tester after one call, and after a sequence of calls. *)
Definition after_call (t : ABTester) (c : Call) : ABTester :=
  match c with
  | CallSelectModel r user_id => (select_model r user_id t).2
  | CallLogRequest v p latency_ms request_id now =>
      (log_request v p latency_ms request_id now t).2
  | CallGetStatistics => (get_statistics t).2
  | CallResetLogs => (reset_logs t).2
  end.

Definition after_calls (t : ABTester) (cs : list Call) : ABTester :=
  fold_left after_call cs t.

(** The entries the [log_request] calls of a sequence build, in call
    order, counted from the last [reset_logs] of the sequence on; the
    flag tells whether the sequence holds a [reset_logs]. *)
Fixpoint logged_since_reset (cs : list Call) : bool * list LogEntry.t :=
  match cs with
  | [] => (false, [])
  | c :: cs' =>
      let '(reset, entries) := logged_since_reset cs' in
      if reset then (true, entries)
      else match c with
           | CallResetLogs => (true, entries)
           | CallLogRequest v p latency_ms request_id now =>
               (false,
                {| LogEntry.request_id := request_id;
                   LogEntry.timestamp := now;
                   LogEntry.model_version := v;
                   LogEntry.prediction := Prediction.prediction p;
                   LogEntry.churn_probability := Prediction.churn_probability p;
                   LogEntry.latency_ms := latency_ms |} :: entries)
           | _ => (false, entries)
           end
  end.

(** A request to one of the three handlers, with what it reads from its
    environment, and the globals after it has been handled. *)
Inductive Request : Type :=
  | PostPredict (env : Ambient) (customer : CustomerData.t) (user_id : option string)
  | GetStats
  | PostReset.

Definition handle (g : Globals) (q : Request) : Globals :=
  match q with
  | PostPredict env customer user_id => (predict_churn env customer user_id g).2
  | GetStats => (get_ab_stats g).2
  | PostReset => (reset_ab_stats g).2
  end.

Definition serve (g : Globals) (qs : list Request) : Globals := fold_left handle qs g.

(** The globals of a process that serves: a tester exists, its policy is
    not empty and names each version once, every version of the policy is
    a key of [models], and every logged request was routed to a version of
    the policy. *)
Definition serving (g : Globals) : Prop :=
  exists t, ab_tester g = Some t
    /\ traffic_split t <> []
    /\ NoDup (keys (traffic_split t))
    /\ (forall v, v ∈ keys (traffic_split t) -> is_Some (models g !! v))
    /\ (forall r, r ∈ request_log t -> LogEntry.model_version r ∈ keys (traffic_split t)).

(** A float that is not a number. *)
Definition is_nan (x : float) : Prop := Prim2SF x = S754_nan.

(** ** Policies and logs used as examples *)

(** A policy whose weights sum to 0.995, and a draw above that sum. *)
Definition split_short : dict float := [("v1", 0.5%float); ("v2", 0.495%float)].
Definition draw_above_short : float := 0.999%float.

(** A policy with a negative weight whose weights sum to exactly 1.0. *)
Definition split_negative : dict float := [("a", (-0.5)%float); ("b", 1.5%float)].

(** A policy with a negative weight whose weights sum to 0.5. *)
Definition split_negative_low : dict float := [("a", (-0.5)%float); ("b", 1%float)].

(** Policies whose weights sum to 0.8, 1.2, 0.999 and 1.005. *)
Definition split_sum_0_8 : dict float := [("v1", 0.4%float); ("v2", 0.4%float)].
Definition split_sum_1_2 : dict float := [("v1", 0.6%float); ("v2", 0.6%float)].
Definition split_sum_0_999 : dict float := [("v1", 0.5%float); ("v2", 0.499%float)].
Definition split_sum_1_005 : dict float := [("v1", 0.5%float); ("v2", 0.505%float)].

(** The tester [ABTester()] builds. *)
Definition default_tester : ABTester :=
  {| traffic_split := default_traffic_split; request_log := [] |}.

(** A logged request with the fields the statistics read. *)
Definition logged (request_id model_version : string) (prediction : Z)
    (churn_probability latency_ms : float) : LogEntry.t :=
  {| LogEntry.request_id := request_id;
     LogEntry.timestamp := "2024-05-01T12:00:00";
     LogEntry.model_version := model_version;
     LogEntry.prediction := prediction;
     LogEntry.churn_probability := churn_probability;
     LogEntry.latency_ms := latency_ms |}.

(** Three requests served by v1 in 10, 20 and 30 ms, two of them predicted
    positive, and one request served by v2 in 5 ms, predicted negative. *)
Definition scenario_log : list LogEntry.t :=
  [ logged "r1" "v1" 1 0.9%float 10%float;
    logged "r2" "v2" 0 0.2%float 5%float;
    logged "r3" "v1" 1 0.7%float 20%float;
    logged "r4" "v1" 0 0.1%float 30%float ].

Definition scenario_tester : ABTester :=
  {| traffic_split := default_traffic_split; request_log := scenario_log |}.

(** The default policy after a single request, served by v1. *)
Definition one_request_tester : ABTester :=
  {| traffic_split := default_traffic_split;
     request_log := [logged "r1" "v1" 1 0.9%float 10%float] |}.

(** A predictor that answers every customer with the same prediction. *)
Definition constant_predictor (version : string) (label : Z) (probability : float)
  : ChurnPredictor.t :=
  {| ChurnPredictor.model_version := version;
     ChurnPredictor.predict := fun _ =>
       Return {| Prediction.model_version := version;
                 Prediction.prediction := label;
                 Prediction.churn_probability := probability;
                 Prediction.will_churn := Z.eqb label 1;
                 Prediction.confidence := probability |} |}.

(** The registry the lifespan hook fills: versions v1 and v2. *)
Definition two_models : gmap string ChurnPredictor.t :=
  <["v2" := constant_predictor "v2" 0 0.8%float]>
    (<["v1" := constant_predictor "v1" 1 0.9%float]> ∅).

(** Globals whose policy sends all traffic to v3, a version the registry
    does not hold. *)
Definition unknown_version_globals : Globals :=
  {| models := two_models;
     ab_tester := Some {| traffic_split := [("v3", 1%float)]; request_log := [] |};
     metrics := [] |}.

Definition sample_customer : CustomerData.t :=
  {| CustomerData.gender := "Male"; CustomerData.SeniorCitizen := 0;
     CustomerData.Partner := "Yes"; CustomerData.Dependents := "No";
     CustomerData.tenure := 12; CustomerData.PhoneService := "Yes";
     CustomerData.MultipleLines := "No"; CustomerData.InternetService := "Fiber optic";
     CustomerData.OnlineSecurity := "No"; CustomerData.OnlineBackup := "No";
     CustomerData.DeviceProtection := "No"; CustomerData.TechSupport := "No";
     CustomerData.StreamingTV := "Yes"; CustomerData.StreamingMovies := "Yes";
     CustomerData.Contract := "Month-to-month"; CustomerData.PaperlessBilling := "Yes";
     CustomerData.PaymentMethod := "Electronic check";
     CustomerData.MonthlyCharges := 70.35%float;
     CustomerData.TotalCharges := 840.5%float |}.

Definition sample_env : Ambient :=
  {| uuid4 := "0b0e7a52-6c1f-4d5e-9a57-3f2c8d1e4b90";
     random := 0.25%float;
     time_before := 1714564800%float;
     time_after := 1714564800.5%float;
     now_isoformat := "2024-05-01T12:00:00.500000" |}.

(** Globals before the start-up hook has run. *)
Definition fresh_globals : Globals :=
  {| models := ∅; ab_tester := None; metrics := [] |}.

(** A loader that finds both model versions on disk. *)
Definition load_constant (version : string) : result ChurnPredictor.t :=
  Return (constant_predictor version 1 0.9%float).

(** A loader that finds v1 and fails on v2. *)
Definition load_v1_only (version : string) : result ChurnPredictor.t :=
  if String.eqb version "v1" then Return (constant_predictor version 1 0.9%float)
  else Raise (Raised "Failed to load model v2").

(** The globals a successful start-up leaves. *)
Definition started_globals : Globals :=
  {| models := <["v2" := constant_predictor "v2" 1 0.9%float]>
                 (<["v1" := constant_predictor "v1" 1 0.9%float]> ∅);
     ab_tester := Some default_tester;
     metrics := [] |}.

(** Artifacts of a two-class classifier that answers every customer with
    label 1 and the class probabilities 0.2 and 0.8. *)
Definition constant_artifacts : Artifacts :=
  {| features := unit;
     preprocess_input := fun _ => Return tt;
     model_predict := fun _ => Return 1;
     model_predict_proba := fun _ => Return [0.2%float; 0.8%float] |}.

(** A policy one of whose weights is not a number. *)
Definition split_nan : dict float := [("v1", PrimFloat.nan); ("v2", 0.5%float)].

(** A record routed to v3, a version the default policy does not name. *)
Definition stray_tester : ABTester :=
  {| traffic_split := default_traffic_split;
     request_log := [logged "r1" "v1" 1 0.9%float 10%float;
                     logged "r2" "v3" 0 0.3%float 7%float] |}.

(** What the constant predictor of v1 answers, and the globals after the
    sample request has been served from the started globals. *)
Definition sample_prediction : Prediction.t :=
  {| Prediction.model_version := "v1";
     Prediction.prediction := 1;
     Prediction.churn_probability := 0.9%float;
     Prediction.will_churn := true;
     Prediction.confidence := 0.9%float |}.

Definition served_globals : Globals :=
  globals_after_prediction started_globals default_tester sample_env "v1" sample_prediction.


(** Globals whose two predictors are built from the constant artifacts. *)
Definition loaded_globals : Globals :=
  {| models := <["v2" := loaded_predictor constant_artifacts "v2"]>
                 (<["v1" := loaded_predictor constant_artifacts "v1"]> ∅);
     ab_tester := Some default_tester;
     metrics := [] |}.

(** ** Auxiliary facts *)

Section Monad_facts.
Context {S A B : Type}.

Lemma bind_ret (a : A) (k : A -> M S B) (s : S) : bind (ret a) k s = k a s.
Proof. reflexivity. Qed.

Lemma bind_get (k : S -> M S B) (s : S) : bind get k s = k s s.
Proof. reflexivity. Qed.

Lemma bind_lift_return (a : A) (k : A -> M S B) (s : S) :
  bind (lift (Return a)) k s = k a s.
Proof. reflexivity. Qed.

Lemma bind_lift_raise (e : exn) (k : A -> M S B) (s : S) :
  bind (lift (Raise e)) k s = (Raise e, s).
Proof. reflexivity. Qed.
End Monad_facts.

(** IEEE comparison: [x < y] excludes [y <= x]. *)
Lemma ltb_not_leb (x y : float) :
  (x <? y)%float = true -> (y <=? x)%float = false.
Proof.
  rewrite FloatAxioms.ltb_spec, FloatAxioms.leb_spec. unfold SFltb, SFleb.
  destruct (Prim2SF x) as [sx|sx| |sx mx ex], (Prim2SF y) as [sy|sy| |sy my ey];
    simpl; try destruct sx; try destruct sy; simpl; try congruence.
  all: rewrite (Z.compare_antisym ey ex); destruct (ey ?= ex)%Z; simpl; try congruence.
  all: fold (Pos.compare mx my); fold (Pos.compare my mx).
  all: rewrite (Pos.compare_antisym my mx); destruct (my ?= mx)%positive; simpl; congruence.
Qed.

(** [sum] over the values and the loop of [select_model] add the same
    weights in the same order. *)
Lemma sum_float_accumulate (d : dict float) :
  sum_float (values d) = accumulate 0%float (items d).
Proof.
  unfold sum_float, accumulate, values, items.
  generalize 0%float. induction d as [|[k w] d IH]; intros c; simpl; [reflexivity|].
  apply IH.
Qed.

Section Select_loop.
Variable r : float.

(** What the loop returns is the first version, in list order, at whose
    iteration the test [r <= cumulative] succeeds. *)
Lemma select_loop_Some (its : list (string * float)) (c : float) (v : string) :
  select_loop r c its = Some v ->
  exists i w, its !! i = Some (v, w)
    /\ (r <=? accumulate c (take (S i) its))%float = true
    /\ forall j, (j < i)%nat -> (r <=? accumulate c (take (S j) its))%float = false.
Proof.
  revert c. induction its as [|[k w] its IH]; intros c; simpl; [discriminate|].
  destruct (r <=? c + w)%float eqn:Hle.
  - intros [= <-]. exists 0%nat, w. repeat split; [|intros j Hj; lia].
    now rewrite take_0.
  - intros Hsel. destruct (IH _ Hsel) as (i & w' & Hi & Hre & Hbefore).
    exists (Datatypes.S i), w'. repeat split; [exact Hi|exact Hre|].
    intros [|j] Hj; [now rewrite take_0|].
    apply Hbefore. lia.
Qed.

(** The loop runs to its end exactly when the test fails at every
    iteration. *)
Lemma select_loop_None (its : list (string * float)) (c : float) :
  select_loop r c its = None <->
  forall i, (i < length its)%nat -> (r <=? accumulate c (take (S i) its))%float = false.
Proof.
  revert c. induction its as [|[k w] its IH]; intros c; simpl.
  - split; [intros _ i Hi; lia|reflexivity].
  - destruct (r <=? c + w)%float eqn:Hle.
    + split; [discriminate|]. intros H. specialize (H 0%nat ltac:(lia)).
      rewrite take_0 in H. simpl in H. congruence.
    + rewrite IH. split.
      * intros H [|i] Hi; [now rewrite take_0|]. apply H. lia.
      * intros H i Hi. apply (H (Datatypes.S i)). lia.
Qed.

Lemma select_loop_key (its : list (string * float)) (c : float) (v : string) :
  select_loop r c its = Some v -> v ∈ its.*1.
Proof.
  intros H. destruct (select_loop_Some _ _ _ H) as (i & w & Hi & _).
  apply list_elem_of_fmap. exists (v, w). split; [reflexivity|].
  eapply list_elem_of_lookup_2, Hi.
Qed.
End Select_loop.

(** The policy an accepted constructor call stores: never empty, its
    weight sum within the tolerance, and no request logged yet. *)
Lemma init_Return (given : option (dict float)) (t : ABTester) :
  __init__ given = Return t ->
  t = {| traffic_split := or_default given; request_log := [] |}
  /\ traffic_split t <> []
  /\ within_tolerance (sum_float (values (traffic_split t))) = true.
Proof.
  unfold __init__. simpl.
  destruct (within_tolerance (sum_float (values (or_default given)))) eqn:Htol;
    simpl; [|discriminate].
  intros [= <-]. simpl. repeat split; [|exact Htol].
  destruct given as [[|kw d]|]; simpl; discriminate.
Qed.

(** The two mutators of the tester keep its policy. *)
Lemma log_request_traffic_split (model_version : string) (prediction : Prediction.t)
    (latency_ms : float) (request_id now : string) (t : ABTester) :
  traffic_split (log_request model_version prediction latency_ms request_id now t).2
  = traffic_split t.
Proof. reflexivity. Qed.

Lemma reset_logs_traffic_split (t : ABTester) :
  traffic_split (reset_logs t).2 = traffic_split t.
Proof. reflexivity. Qed.

Lemma validated_nonempty (d : dict float) :
  validated d -> d <> [] /\ within_tolerance (sum_float (values d)) = true.
Proof.
  intros (given & t0 & Hinit & <-).
  destruct (init_Return _ _ Hinit) as (_ & Hne & Htol). now split.
Qed.

Lemma has_negative_weight_nonempty (d : dict float) :
  has_negative_weight d = true -> d <> [].
Proof. destruct d; [discriminate|discriminate]. Qed.

(** ** Properties of [select_model] *)

(** C5.  On a tester whose policy the constructor accepted, with a draw
    [r] in [0, 1) that does not exceed the weight sum (the sum of all
    weights as the loop accumulates them), [select_model] returns the
    version at the first position [i], in the insertion order of the
    policy, whose cumulative weight is greater than or equal to [r]: the
    test succeeds at [i] and fails at every earlier position.  The tester
    is left as it was. *)
Theorem select_model_first_reaching_version
    (t : ABTester) (r : float) (user_id : option string) :
  validated (traffic_split t) ->
  in_unit_interval r ->
  (r <=? accumulate 0%float (items (traffic_split t)))%float = true ->
  exists i v w,
    items (traffic_split t) !! i = Some (v, w)
    /\ select_model r user_id t = (Return v, t)
    /\ (r <=? cumulative_at (traffic_split t) i)%float = true
    /\ forall j, (j < i)%nat -> (r <=? cumulative_at (traffic_split t) j)%float = false.
Proof.
  intros Hvalid _ Htotal.
  destruct (validated_nonempty _ Hvalid) as (Hne & _).
  unfold select_model. rewrite bind_get.
  destruct (select_loop r 0%float (items (traffic_split t))) as [v|] eqn:Hsel.
  - destruct (select_loop_Some _ _ _ _ Hsel) as (i & w & Hi & Hre & Hbefore).
    exists i, v, w. repeat split; assumption.
  - exfalso. rewrite select_loop_None in Hsel.
    destruct (traffic_split t) as [|kw d] eqn:Hts; [congruence|].
    specialize (Hsel (length d) ltac:(simpl; lia)).
    rewrite take_ge in Hsel by (unfold items; simpl; lia).
    congruence.
Qed.

(** The default policy after the four requests of the scenario, draw 0.7:
    the second version is selected. *)
Lemma select_model_first_reaching_version_witness :
  exists i v w,
    items (traffic_split scenario_tester) !! i = Some (v, w)
    /\ select_model 0.7%float None scenario_tester = (Return v, scenario_tester)
    /\ (0.7 <=? cumulative_at (traffic_split scenario_tester) i)%float = true
    /\ forall j, (j < i)%nat ->
         (0.7 <=? cumulative_at (traffic_split scenario_tester) j)%float = false.
Proof.
  apply (select_model_first_reaching_version scenario_tester 0.7%float None).
  - exists None, default_tester. split; reflexivity.
  - split; reflexivity.
  - reflexivity.
Defined.

(** C3, as stated, fails: on the accepted policy [{"v1": 0.5, "v2": 0.495}]
    the draw 0.999 exceeds the final cumulative sum 0.995, and
    [select_model] returns ["v1"], which is the first version and not the
    last one, ["v2"]. *)
Lemma select_model_fallback_not_last :
  __init__ (Some split_short)
    = Return {| traffic_split := split_short; request_log := [] |}
  /\ in_unit_interval draw_above_short
  /\ (accumulate 0%float (items split_short) <? draw_above_short)%float = true
  /\ last (keys split_short) = Some "v2"
  /\ (select_model draw_above_short None
        {| traffic_split := split_short; request_log := [] |}).1 = Return "v1"
  /\ (select_model draw_above_short None
        {| traffic_split := split_short; request_log := [] |}).1 <> Return "v2".
Proof.
  repeat split; try reflexivity. vm_compute. discriminate.
Qed.

(** C3, amended.  On a tester whose policy the constructor accepted, with a
    draw [r] in [0, 1): if [r] exceeds the cumulative weight at every
    iteration of the loop, the final cumulative sum included,
    [select_model] does not fail and returns the first version in the
    iteration order of the policy. *)
Theorem select_model_fallback_first
    (t : ABTester) (r : float) (user_id : option string) :
  validated (traffic_split t) ->
  in_unit_interval r ->
  (forall i, (i < length (items (traffic_split t)))%nat ->
             (cumulative_at (traffic_split t) i <? r)%float = true) ->
  exists v, head (keys (traffic_split t)) = Some v
            /\ select_model r user_id t = (Return v, t).
Proof.
  intros Hvalid _ Hexceeds.
  destruct (validated_nonempty _ Hvalid) as (Hne & _).
  unfold select_model. rewrite bind_get.
  assert (select_loop r 0%float (items (traffic_split t)) = None) as ->.
  { apply select_loop_None. intros i Hi. apply ltb_not_leb, Hexceeds, Hi. }
  destruct (traffic_split t) as [|[k w] d]; [congruence|].
  exists k. split; reflexivity.
Qed.

(** The policy [{"v1": 0.5, "v2": 0.495}] and the draw 0.999. *)
Lemma select_model_fallback_first_witness :
  exists v, head (keys split_short) = Some v
            /\ select_model draw_above_short None
                 {| traffic_split := split_short; request_log := [] |}
               = (Return v, {| traffic_split := split_short; request_log := [] |}).
Proof.
  apply (select_model_fallback_first
           {| traffic_split := split_short; request_log := [] |}
           draw_above_short None).
  - exists (Some split_short), {| traffic_split := split_short; request_log := [] |}.
    split; reflexivity.
  - split; reflexivity.
  - intros [|[|i]] Hi; [reflexivity|reflexivity|simpl in Hi; lia].
Defined.

(** C10.  A tester whose policy the constructor accepted holds a non-empty
    [traffic_split] whose weight sum is within [0.99, 1.01], and on it, for
    every draw [r] in [0, 1), [select_model] returns (it does not raise) a
    key of [traffic_split], whether the loop or the fallback produces
    it. *)
Theorem select_model_returns_policy_key
    (t : ABTester) (r : float) (user_id : option string) :
  validated (traffic_split t) ->
  in_unit_interval r ->
  traffic_split t <> []
  /\ within_tolerance (sum_float (values (traffic_split t))) = true
  /\ exists v, select_model r user_id t = (Return v, t) /\ v ∈ keys (traffic_split t).
Proof.
  intros Hvalid _.
  destruct (validated_nonempty _ Hvalid) as (Hne & Htol).
  split; [exact Hne|]. split; [exact Htol|].
  unfold select_model. rewrite bind_get.
  destruct (select_loop r 0%float (items (traffic_split t))) as [v|] eqn:Hsel.
  - exists v. split; [reflexivity|]. eapply select_loop_key, Hsel.
  - destruct (traffic_split t) as [|[k w] d]; [congruence|].
    exists k. split; [reflexivity|]. apply list_elem_of_here.
Qed.

(** The default policy after one request, and the draw 0.25. *)
Lemma select_model_returns_policy_key_witness :
  traffic_split one_request_tester <> []
  /\ within_tolerance (sum_float (values (traffic_split one_request_tester))) = true
  /\ exists v, select_model 0.25%float (Some "user-7") one_request_tester
                 = (Return v, one_request_tester)
               /\ v ∈ keys (traffic_split one_request_tester).
Proof.
  apply (select_model_returns_policy_key one_request_tester 0.25%float (Some "user-7")).
  - exists None, default_tester. split; reflexivity.
  - split; reflexivity.
Defined.

(** ** Properties of the constructor *)

(** C4, as stated, fails: the mapping [{"a": -0.5, "b": 1.5}] holds a
    negative weight, its weights sum to 1.0, and the constructor accepts
    it. *)
Lemma init_accepts_negative_weight :
  has_negative_weight split_negative = true
  /\ sum_float (values split_negative) = 1%float
  /\ __init__ (Some split_negative)
     = Return {| traffic_split := split_negative; request_log := [] |}.
Proof. repeat split; reflexivity. Qed.

(** C4, amended.  For a mapping that contains a negative weight the
    constructor decides on the weight sum alone: it raises [ValueError]
    when the sum is outside [0.99, 1.01], and when the sum is within that
    tolerance it accepts the mapping and stores it as given. *)
Theorem init_negative_weight_by_sum (d : dict float) :
  has_negative_weight d = true ->
  __init__ (Some d) =
    if within_tolerance (sum_float (values d))
    then Return {| traffic_split := d; request_log := [] |}
    else Raise (ValueError "Traffic split must sum to 1.0, got " (sum_float (values d))).
Proof.
  intros Hneg. apply has_negative_weight_nonempty in Hneg.
  destruct d as [|kw d]; [congruence|].
  unfold __init__. simpl or_default. cbv zeta.
  cbn [traffic_split].
  destruct (within_tolerance (sum_float (values (kw :: d)))); reflexivity.
Qed.

(** The mapping [{"a": -0.5, "b": 1.0}], whose weights sum to 0.5, is
    rejected. *)
Lemma init_negative_weight_by_sum_witness :
  __init__ (Some split_negative_low)
  = Raise (ValueError "Traffic split must sum to 1.0, got " 0.5%float).
Proof.
  exact (init_negative_weight_by_sum split_negative_low eq_refl).
Defined.

(** C7, as stated, fails on the empty mapping: its weight sum, 0, is
    outside the tolerance, yet the constructor does not raise, and the
    weights it stores are those of the default policy, not the given
    ones. *)
Lemma init_empty_mapping_defaulted :
  within_tolerance (sum_float (values ([] : dict float))) = false
  /\ __init__ (Some []) = Return default_tester
  /\ traffic_split default_tester <> [].
Proof. split; [reflexivity|]. split; [reflexivity|discriminate]. Qed.

(** C7, amended.  For every non-empty mapping, the constructor raises
    [ValueError] if and only if the weight sum is outside [0.99, 1.01], and
    a mapping it accepts is stored as given, weights unchanged.  Mappings
    whose weights sum to 0.8 and to 1.2 are rejected; mappings whose
    weights sum to 0.999 and to 1.005 are accepted as given. *)
Theorem init_rejects_iff_sum_out_of_tolerance :
  (forall d : dict float, d <> [] ->
     ((exists e, __init__ (Some d) = Raise e)
        <-> within_tolerance (sum_float (values d)) = false)
     /\ (forall t, __init__ (Some d) = Return t ->
           t = {| traffic_split := d; request_log := [] |}))
  /\ (sum_float (values split_sum_0_8) = 0.8%float
      /\ exists e, __init__ (Some split_sum_0_8) = Raise e)
  /\ (sum_float (values split_sum_1_2) = 1.2%float
      /\ exists e, __init__ (Some split_sum_1_2) = Raise e)
  /\ (sum_float (values split_sum_0_999) = 0.999%float
      /\ __init__ (Some split_sum_0_999)
         = Return {| traffic_split := split_sum_0_999; request_log := [] |})
  /\ (sum_float (values split_sum_1_005) = 1.005%float
      /\ __init__ (Some split_sum_1_005)
         = Return {| traffic_split := split_sum_1_005; request_log := [] |}).
Proof.
  split.
  - intros [|kw d] Hne; [congruence|].
    unfold __init__. simpl or_default. cbv zeta. cbn [traffic_split].
    destruct (within_tolerance (sum_float (values (kw :: d)))); simpl; split.
    + split; [intros [e He]; discriminate|discriminate].
    + now intros t [= <-].
    + split; [reflexivity|]. intros _. eexists. reflexivity.
    + discriminate.
  - repeat split; try reflexivity; eexists; reflexivity.
Qed.

(** The mapping whose weights sum to 0.999. *)
Lemma init_rejects_iff_sum_out_of_tolerance_witness :
  ((exists e, __init__ (Some split_sum_0_999) = Raise e)
     <-> within_tolerance (sum_float (values split_sum_0_999)) = false)
  /\ (forall t, __init__ (Some split_sum_0_999) = Return t ->
        t = {| traffic_split := split_sum_0_999; request_log := [] |}).
Proof.
  apply (proj1 init_rejects_iff_sum_out_of_tolerance split_sum_0_999).
  discriminate.
Defined.

(** ** Properties of [get_statistics] *)

Lemma len_nonempty {A} (l : list A) : l <> [] -> Z.eqb (len l) 0 = false.
Proof. destruct l; [congruence|]. intros _. unfold len. simpl. lia. Qed.

Lemma model_requests_of_nonempty (log : list LogEntry.t) (v : string) :
  model_requests_of log v <> [] -> log <> [].
Proof. intros H ->. apply H. reflexivity. Qed.

(** One iteration of the loop never raises and leaves the tester as it
    was; it touches the entry of its own version only, and only when some
    record matches it. *)
Lemma model_statistics_step_spec (log : list LogEntry.t) (stats : Statistics.t)
    (mv : string) (s : ABTester) :
  exists stats',
    model_statistics_step log stats mv s = (Return stats', s)
    /\ Statistics.total_requests stats' = Statistics.total_requests stats
    /\ (forall v, v <> mv -> Statistics.models stats' !! v = Statistics.models stats !! v)
    /\ (matching log mv = 0%nat -> stats' = stats)
    /\ ((0 < matching log mv)%nat ->
        exists e, Statistics.models stats' !! mv = Some e
                  /\ ModelStatistics.request_count e = Z.of_nat (matching log mv)).
Proof.
  unfold model_statistics_step, matching.
  destruct (model_requests_of log mv) as [|x mr] eqn:Hreq.
  - exists stats. repeat split; try reflexivity. simpl. lia.
  - assert (Hlog : Z.eqb (len log) 0 = false).
    { apply len_nonempty, (model_requests_of_nonempty log mv). now rewrite Hreq. }
    unfold int_truediv, float_truediv_int. rewrite Hlog.
    rewrite !len_nonempty by discriminate.
    eexists. split; [reflexivity|]. cbn [Statistics.total_requests Statistics.models].
    repeat split.
    + intros v Hv. now rewrite lookup_insert_ne.
    + simpl. lia.
    + intros _. eexists. rewrite lookup_insert_eq. split; reflexivity.
Qed.

(** The whole loop, over the keys [ks]. *)
Lemma statistics_loop_spec (log : list LogEntry.t) (ks : list string)
    (stats : Statistics.t) (s : ABTester) :
  exists stats',
    for_each ks stats (model_statistics_step log) s = (Return stats', s)
    /\ Statistics.total_requests stats' = Statistics.total_requests stats
    /\ (forall v, v ∉ ks -> Statistics.models stats' !! v = Statistics.models stats !! v)
    /\ (forall v, matching log v = 0%nat ->
          Statistics.models stats' !! v = Statistics.models stats !! v)
    /\ (forall v, v ∈ ks -> (0 < matching log v)%nat ->
          exists e, Statistics.models stats' !! v = Some e
                    /\ ModelStatistics.request_count e = Z.of_nat (matching log v)).
Proof.
  revert stats. induction ks as [|k ks IH]; intros stats; simpl.
  - exists stats. repeat split; try reflexivity. intros v Hv. now apply elem_of_nil in Hv.
  - destruct (model_statistics_step_spec log stats k s)
      as (stats1 & Hstep & Htot1 & Hother1 & Hzero1 & Hpos1).
    destruct (IH stats1) as (stats' & Hloop & Htot & Hout & Hzero & Hpos).
    exists stats'. unfold bind. rewrite Hstep. split; [exact Hloop|].
    split; [congruence|]. repeat split.
    + intros v Hv. apply not_elem_of_cons in Hv as [Hvk Hvks].
      rewrite Hout by assumption. now apply Hother1.
    + intros v Hv. rewrite Hzero by assumption.
      destruct (decide (v = k)) as [->|Hvk]; [now rewrite Hzero1|now apply Hother1].
    + intros v Hv Hm. destruct (decide (v ∈ ks)) as [Hin|Hnin]; [now apply Hpos|].
      apply elem_of_cons in Hv as [->|Hv]; [|contradiction].
      rewrite Hout by assumption. now apply Hpos1.
Qed.

(** C8.  On a tester whose [request_log] is empty, [get_statistics]
    returns (it does not raise, no division is evaluated)
    [total_requests = 0] with an empty per-version map. *)
Theorem get_statistics_empty_log (t : ABTester) :
  request_log t = [] ->
  get_statistics t
  = (Return {| Statistics.total_requests := 0; Statistics.models := ∅ |}, t).
Proof.
  intros Hlog. unfold get_statistics. rewrite bind_get, Hlog. reflexivity.
Qed.

(** The tester [ABTester()] builds, before any request. *)
Lemma get_statistics_empty_log_witness :
  get_statistics default_tester
  = (Return {| Statistics.total_requests := 0; Statistics.models := ∅ |}, default_tester).
Proof. exact (get_statistics_empty_log default_tester eq_refl). Defined.

(** C9.  [get_statistics] observes and does not modify: on every tester it
    returns statistics (it does not raise), the tester after the call, its
    [traffic_split], its [request_log] and every record in it, is the tester
    before the call, and a second call returns the same result. *)
Theorem get_statistics_pure (t : ABTester) :
  (exists stats, (get_statistics t).1 = Return stats)
  /\ (get_statistics t).2 = t
  /\ get_statistics (get_statistics t).2 = get_statistics t.
Proof.
  assert (H : exists stats, get_statistics t = (Return stats, t)).
  { unfold get_statistics. rewrite bind_get.
    destruct (request_log t) as [|x log] eqn:Hlog; [eexists; reflexivity|].
    destruct (statistics_loop_spec (x :: log) (keys (traffic_split t))
                {| Statistics.total_requests := len (x :: log); Statistics.models := ∅ |} t)
      as (stats & Hloop & _).
    exists stats. exact Hloop. }
  destruct H as (stats & H). rewrite H. simpl.
  split; [now exists stats|]. split; [reflexivity|exact H].
Qed.

(** C2, as stated, fails: with the default policy and a log of one request
    served by v1, the record set is not empty and ["v2"] is a version of
    the policy, yet the per-version map has no entry for ["v2"]. *)
Lemma get_statistics_omits_unused_version :
  request_log one_request_tester <> []
  /\ "v2" ∈ keys (traffic_split one_request_tester)
  /\ matching (request_log one_request_tester) "v2" = 0%nat
  /\ exists stats,
       get_statistics one_request_tester = (Return stats, one_request_tester)
       /\ Statistics.models stats !! "v2" = None.
Proof.
  split; [discriminate|]. split; [|split; [reflexivity|]].
  - apply list_elem_of_further, list_elem_of_here.
  - eexists. split; reflexivity.
Qed.

(** C2, amended.  For every non-empty record set and every version of the
    traffic policy, [get_statistics] returns statistics whose total is the
    number of records, and the per-version map holds an entry for the
    version exactly when at least one record matches it, with the number
    of matching records as its count; a version that no record matches is
    omitted from the map. *)
Theorem get_statistics_reports_matched_versions (t : ABTester) (v : string) :
  request_log t <> [] ->
  v ∈ keys (traffic_split t) ->
  exists stats,
    get_statistics t = (Return stats, t)
    /\ Statistics.total_requests stats = len (request_log t)
    /\ (matching (request_log t) v = 0%nat -> Statistics.models stats !! v = None)
    /\ ((0 < matching (request_log t) v)%nat ->
        exists e, Statistics.models stats !! v = Some e
                  /\ ModelStatistics.request_count e
                     = Z.of_nat (matching (request_log t) v)).
Proof.
  intros Hlog Hv. unfold get_statistics. rewrite bind_get.
  destruct (request_log t) as [|x log]; [congruence|].
  destruct (statistics_loop_spec (x :: log) (keys (traffic_split t))
              {| Statistics.total_requests := len (x :: log); Statistics.models := ∅ |} t)
    as (stats & Hloop & Htot & _ & Hzero & Hpos).
  exists stats. split; [exact Hloop|]. split; [exact Htot|]. split.
  - intros Hm. rewrite (Hzero v Hm). apply lookup_empty.
  - intros Hm. now apply Hpos.
Qed.

(** The scenario log and the version v1, which three records match. *)
Lemma get_statistics_reports_matched_versions_witness :
  exists stats,
    get_statistics scenario_tester = (Return stats, scenario_tester)
    /\ Statistics.total_requests stats = len (request_log scenario_tester)
    /\ (matching (request_log scenario_tester) "v1" = 0%nat ->
        Statistics.models stats !! "v1" = None)
    /\ ((0 < matching (request_log scenario_tester) "v1")%nat ->
        exists e, Statistics.models stats !! "v1" = Some e
                  /\ ModelStatistics.request_count e
                     = Z.of_nat (matching (request_log scenario_tester) "v1")).
Proof.
  apply (get_statistics_reports_matched_versions scenario_tester "v1").
  - discriminate.
  - vm_compute. apply list_elem_of_here.
Defined.

(** C6.  On the scenario log (three v1 records with latencies 10, 20 and
    30 ms, two of them positive; one v2 record with latency 5 ms, not
    positive) [get_statistics] reports a total of 4 requests; for v1 a
    count of 3, a mean latency of 20 and a positive rate of
    66.66666666666666, which is 66.7 to one decimal place; for v2 a count
    of 1, a mean latency of 5 and a positive rate of 0. *)
Theorem get_statistics_scenario :
  get_statistics scenario_tester
  = (Return
       {| Statistics.total_requests := 4;
          Statistics.models :=
            {[ "v1" := {| ModelStatistics.request_count := 3;
                          ModelStatistics.traffic_percentage := 75%float;
                          ModelStatistics.avg_latency_ms := 20%float;
                          ModelStatistics.churn_rate := 66.66666666666666%float;
                          ModelStatistics.min_latency_ms := 10%float;
                          ModelStatistics.max_latency_ms := 30%float |};
               "v2" := {| ModelStatistics.request_count := 1;
                          ModelStatistics.traffic_percentage := 25%float;
                          ModelStatistics.avg_latency_ms := 5%float;
                          ModelStatistics.churn_rate := 0%float;
                          ModelStatistics.min_latency_ms := 5%float;
                          ModelStatistics.max_latency_ms := 5%float |} ]} |},
     scenario_tester)
  /\ (66.65 <=? 66.66666666666666)%float = true
  /\ (66.66666666666666 <? 66.75)%float = true.
Proof. repeat split; vm_compute; reflexivity. Qed.

(** ** Properties of [predict_churn] *)

(** [select_model] leaves the tester as it was. *)
Lemma select_model_frame (r : float) (user_id : option string) (t : ABTester) :
  (select_model r user_id t).2 = t.
Proof.
  unfold select_model. rewrite bind_get.
  destruct (select_loop r 0%float (items (traffic_split t))); [reflexivity|].
  unfold lift. reflexivity.
Qed.

Lemma globals_eta (g : Globals) (self : ABTester) :
  ab_tester g = Some self ->
  {| models := models g; ab_tester := Some self; metrics := metrics g |} = g.
Proof. destruct g. simpl. now intros ->. Qed.

(** C1.  A call of [predict_churn] that returns has appended exactly one
    record to the request log, the one of the returned response; a call
    that fails surfaces an [HTTPException] with status 500 and leaves the
    globals, hence the request log, unchanged.  In particular, when the
    version [select_model] returns is not a key of [models], the call
    fails with the [KeyError] of that version as its cause and the request
    log is unchanged. *)
Theorem predict_churn_records_once_or_never
    (env : Ambient) (customer : CustomerData.t) (user_id : option string) (g : Globals) :
  match predict_churn env customer user_id g with
  | (Return response, g') =>
      exists entry,
        recorded g' = recorded g ++ [entry]
        /\ LogEntry.request_id entry = PredictionResponse.request_id response
        /\ LogEntry.model_version entry = PredictionResponse.model_version response
        /\ models g' = models g
  | (Raise e, g') =>
      (exists cause, e = HTTPException 500 cause)
      /\ g' = g /\ recorded g' = recorded g
  end
  /\ (forall self v,
        ab_tester g = Some self ->
        (select_model (random env) user_id self).1 = Return v ->
        models g !! v = None ->
        predict_churn env customer user_id g = (Raise (HTTPException 500 (KeyError v)), g)
        /\ recorded (predict_churn env customer user_id g).2 = recorded g).
Proof.
  assert (Hsel : forall self, ab_tester g = Some self ->
            on_ab_tester "select_model" (select_model (random env) user_id) g
            = ((select_model (random env) user_id self).1, g)).
  { intros self Hself. unfold on_ab_tester. rewrite Hself.
    pose proof (select_model_frame (random env) user_id self) as Hframe.
    destruct (select_model (random env) user_id self) as [r self'].
    simpl in Hframe. subst self'. simpl. now rewrite globals_eta. }
  split.
  - unfold predict_churn, try_except.
    unfold bind at 1.
    destruct (ab_tester g) as [self|] eqn:Hself.
    + rewrite (Hsel self eq_refl).
      destruct (select_model (random env) user_id self).1 as [e|v].
      { split; [now eexists|]. split; reflexivity. }
      unfold bind at 1. unfold models_getitem at 1. rewrite bind_get.
      destruct (models g !! v) as [predictor|].
      2:{ split; [now eexists|]. split; reflexivity. }
      unfold ret at 1. unfold bind at 1. unfold lift at 1.
      destruct (ChurnPredictor.predict predictor customer) as [e|prediction].
      { split; [now eexists|]. split; reflexivity. }
      unfold bind, emit, get, put, ret, on_ab_tester, log_request. simpl.
      rewrite Hself. simpl.
      eexists. unfold recorded. rewrite Hself. simpl.
      split; [reflexivity|]. repeat split.
    + unfold on_ab_tester. rewrite Hself.
      split; [now eexists|]. split; reflexivity.
  - intros self v Hself Hv Hmiss.
    assert (Hcall : predict_churn env customer user_id g
                    = (Raise (HTTPException 500 (KeyError v)), g)).
    { unfold predict_churn, try_except. unfold bind at 1.
      rewrite (Hsel self Hself), Hv.
      unfold bind at 1. unfold models_getitem at 1. rewrite bind_get, Hmiss.
      reflexivity. }
    rewrite Hcall. split; reflexivity.
Qed.

(** The policy that names only v3 against a registry of v1 and v2: the
    call fails with the [KeyError] of v3 and the request log stays
    empty. *)
Lemma predict_churn_records_once_or_never_witness :
  predict_churn sample_env sample_customer None unknown_version_globals
  = (Raise (HTTPException 500 (KeyError "v3")), unknown_version_globals)
  /\ recorded (predict_churn sample_env sample_customer None unknown_version_globals).2
     = recorded unknown_version_globals.
Proof.
  apply (proj2 (predict_churn_records_once_or_never
                  sample_env sample_customer None unknown_version_globals)
               {| traffic_split := [("v3", 1%float)]; request_log := [] |} "v3");
    reflexivity.
Defined.

(** ** Further facts on floats, sums and extrema *)

Lemma SFltb_irrefl (a : spec_float) : SFltb a a = false.
Proof.
  unfold SFltb. destruct a as [s|s| |s m e]; simpl; try destruct s; simpl;
    try reflexivity.
  all: rewrite Z.compare_refl; fold (Pos.compare m m); now rewrite Pos.compare_refl.
Qed.

Lemma SFltb_trans (a b c : spec_float) :
  SFltb a b = true -> SFltb b c = true -> SFltb a c = true.
Proof.
  unfold SFltb.
  destruct a as [sa|sa| |sa ma ea], b as [sb|sb| |sb mb eb], c as [sc|sc| |sc mc ec];
    simpl; try destruct sa; try destruct sb; try destruct sc; simpl; try congruence.
  all: fold (Pos.compare ma mb); fold (Pos.compare mb mc); fold (Pos.compare ma mc).
  all: destruct (Z.compare_spec ea eb), (Z.compare_spec eb ec), (Z.compare_spec ea ec);
    simpl; try congruence; try lia; subst.
  all: destruct (Pos.compare_spec ma mb), (Pos.compare_spec mb mc),
         (Pos.compare_spec ma mc); simpl; try congruence; try lia.
Qed.

Lemma ltb_irrefl (x : float) : (x <? x)%float = false.
Proof. rewrite FloatAxioms.ltb_spec. apply SFltb_irrefl. Qed.

Lemma ltb_trans (x y z : float) :
  (x <? y)%float = true -> (y <? z)%float = true -> (x <? z)%float = true.
Proof. rewrite !FloatAxioms.ltb_spec. apply SFltb_trans. Qed.

(** Nothing is below a value that is below nothing smaller. *)
Lemma ltb_false_below (z y m : float) :
  (z <? m)%float = false -> (y <? m)%float = true -> (z <? y)%float = false.
Proof.
  intros Hzm Hym. destruct (z <? y)%float eqn:Hzy; [|reflexivity].
  now rewrite (ltb_trans _ _ _ Hzy Hym) in Hzm.
Qed.

Lemma ltb_false_above (m y z : float) :
  (m <? z)%float = false -> (m <? y)%float = true -> (y <? z)%float = false.
Proof.
  intros Hmz Hmy. destruct (y <? z)%float eqn:Hyz; [|reflexivity].
  now rewrite (ltb_trans _ _ _ Hmy Hyz) in Hmz.
Qed.

Lemma is_nan_add_l (x y : float) : is_nan x -> is_nan (x + y)%float.
Proof. unfold is_nan. intros H. now rewrite FloatAxioms.add_spec, H. Qed.

Lemma is_nan_add_r (x y : float) : is_nan y -> is_nan (x + y)%float.
Proof.
  unfold is_nan. intros H. rewrite FloatAxioms.add_spec, H.
  now destruct (Prim2SF x).
Qed.

Lemma is_nan_not_leb (x y : float) : is_nan y -> (x <=? y)%float = false.
Proof.
  unfold is_nan. intros H. rewrite FloatAxioms.leb_spec, H.
  unfold SFleb. now destruct (Prim2SF x).
Qed.

Lemma is_nan_fold_add (xs : list float) (c : float) :
  is_nan c -> is_nan (fold_left PrimFloat.add xs c).
Proof.
  revert c. induction xs as [|x xs IH]; intros c Hc; simpl; [exact Hc|].
  now apply IH, is_nan_add_l.
Qed.

(** One NaN among the items makes the sum NaN. *)
Lemma is_nan_sum_float (xs : list float) (w : float) :
  w ∈ xs -> is_nan w -> is_nan (sum_float xs).
Proof.
  unfold sum_float. generalize 0%float.
  induction xs as [|x xs IH]; intros c Hin Hw; [now apply elem_of_nil in Hin|].
  simpl. apply elem_of_cons in Hin as [<-|Hin].
  - now apply is_nan_fold_add, is_nan_add_r.
  - now apply IH.
Qed.

Section Extrema.
Let keep_min (m y : float) : float := if (y <? m)%float then y else m.
Let keep_max (m y : float) : float := if (m <? y)%float then y else m.

Lemma fold_min_elem (xs : list float) (m0 : float) :
  fold_left keep_min xs m0 = m0 \/ fold_left keep_min xs m0 ∈ xs.
Proof.
  revert m0. induction xs as [|y xs IH]; intros m0; simpl; [now left|].
  destruct (IH (keep_min m0 y)) as [->|Hin].
  - unfold keep_min. destruct (y <? m0)%float; [right; apply list_elem_of_here|now left].
  - right. now apply list_elem_of_further.
Qed.

Lemma fold_max_elem (xs : list float) (m0 : float) :
  fold_left keep_max xs m0 = m0 \/ fold_left keep_max xs m0 ∈ xs.
Proof.
  revert m0. induction xs as [|y xs IH]; intros m0; simpl; [now left|].
  destruct (IH (keep_max m0 y)) as [->|Hin].
  - unfold keep_max. destruct (m0 <? y)%float; [right; apply list_elem_of_here|now left].
  - right. now apply list_elem_of_further.
Qed.

Lemma fold_min_keeps (xs : list float) (m0 z : float) :
  (z <? m0)%float = false -> (z <? fold_left keep_min xs m0)%float = false.
Proof.
  revert m0. induction xs as [|y xs IH]; intros m0 Hz; simpl; [exact Hz|].
  apply IH. unfold keep_min. destruct (y <? m0)%float eqn:Hy; [|exact Hz].
  eapply ltb_false_below; eassumption.
Qed.

Lemma fold_max_keeps (xs : list float) (m0 z : float) :
  (m0 <? z)%float = false -> (fold_left keep_max xs m0 <? z)%float = false.
Proof.
  revert m0. induction xs as [|y xs IH]; intros m0 Hz; simpl; [exact Hz|].
  apply IH. unfold keep_max. destruct (m0 <? y)%float eqn:Hy; [|exact Hz].
  eapply ltb_false_above; eassumption.
Qed.

Lemma fold_min_lower (xs : list float) (m0 x : float) :
  x ∈ xs -> (x <? fold_left keep_min xs m0)%float = false.
Proof.
  revert m0. induction xs as [|y xs IH]; intros m0 Hin; [now apply elem_of_nil in Hin|].
  simpl. apply elem_of_cons in Hin as [->|Hin]; [|now apply IH].
  apply fold_min_keeps. unfold keep_min.
  destruct (y <? m0)%float eqn:Hy; [apply ltb_irrefl|exact Hy].
Qed.

Lemma fold_max_upper (xs : list float) (m0 x : float) :
  x ∈ xs -> (fold_left keep_max xs m0 <? x)%float = false.
Proof.
  revert m0. induction xs as [|y xs IH]; intros m0 Hin; [now apply elem_of_nil in Hin|].
  simpl. apply elem_of_cons in Hin as [->|Hin]; [|now apply IH].
  apply fold_max_keeps. unfold keep_max.
  destruct (m0 <? y)%float eqn:Hy; [apply ltb_irrefl|exact Hy].
Qed.

(** [min(xs)] is an item of [xs] that no item is strictly below. *)
Lemma py_min_spec (xs : list float) (m : float) :
  py_min xs = Return m ->
  m ∈ xs /\ forall x, x ∈ xs -> (x <? m)%float = false.
Proof.
  destruct xs as [|x0 xs]; simpl; [discriminate|]. intros [= <-].
  fold keep_min. split.
  - destruct (fold_min_elem xs x0) as [->|Hin];
      [apply list_elem_of_here|now apply list_elem_of_further].
  - intros x Hx. apply elem_of_cons in Hx as [->|Hx].
    + apply fold_min_keeps, ltb_irrefl.
    + now apply fold_min_lower.
Qed.

(** [max(xs)] is an item of [xs] that no item is strictly above. *)
Lemma py_max_spec (xs : list float) (m : float) :
  py_max xs = Return m ->
  m ∈ xs /\ forall x, x ∈ xs -> (m <? x)%float = false.
Proof.
  destruct xs as [|x0 xs]; simpl; [discriminate|]. intros [= <-].
  fold keep_max. split.
  - destruct (fold_max_elem xs x0) as [->|Hin];
      [apply list_elem_of_here|now apply list_elem_of_further].
  - intros x Hx. apply elem_of_cons in Hx as [->|Hx].
    + apply fold_max_keeps, ltb_irrefl.
    + now apply fold_max_upper.
Qed.
End Extrema.

Lemma fold_add_shift (xs : list Z) (a : Z) :
  fold_left Z.add xs a = a + fold_left Z.add xs 0.
Proof.
  revert a. induction xs as [|y xs IH]; intros a; simpl; [lia|].
  rewrite (IH (a + y)), (IH (0 + y)). lia.
Qed.

Lemma sum_int_cons (x : Z) (xs : list Z) : sum_int (x :: xs) = x + sum_int xs.
Proof. unfold sum_int. simpl. apply fold_add_shift. Qed.

(** ** What the statistics hold, entry by entry *)

Lemma model_statistics_step_cases (log : list LogEntry.t) (stats : Statistics.t)
    (mv : string) (s : ABTester) :
  (matching log mv = 0%nat /\ model_statistics_step log stats mv s = (Return stats, s))
  \/ exists e,
       model_statistics_step log stats mv s
       = (Return {| Statistics.total_requests := Statistics.total_requests stats;
                    Statistics.models := <[mv := e]> (Statistics.models stats) |}, s)
       /\ summarises log mv e.
Proof.
  unfold summarises, latencies_of, model_statistics_step, matching.
  destruct (model_requests_of log mv) as [|x mr] eqn:Hreq; [left; now split|].
  right.
  assert (Hlog : Z.eqb (len log) 0 = false).
  { apply len_nonempty, (model_requests_of_nonempty log mv). now rewrite Hreq. }
  unfold int_truediv, float_truediv_int. rewrite Hlog.
  rewrite !len_nonempty by discriminate.
  eexists. split; [reflexivity|]. cbn [ModelStatistics.request_count
    ModelStatistics.min_latency_ms ModelStatistics.max_latency_ms].
  split; [simpl; lia|]. split; [reflexivity|]. split; reflexivity.
Qed.

Lemma statistics_loop_entries (log : list LogEntry.t) (ks : list string)
    (stats stats' : Statistics.t) (s s' : ABTester) :
  for_each ks stats (model_statistics_step log) s = (Return stats', s') ->
  forall v e, Statistics.models stats' !! v = Some e ->
    Statistics.models stats !! v = Some e \/ (v ∈ ks /\ summarises log v e).
Proof.
  revert stats. induction ks as [|k ks IH]; intros stats; simpl.
  - intros [= <- _] v e Hv. now left.
  - unfold bind.
    destruct (model_statistics_step_cases log stats k s) as [[_ ->]|(e0 & -> & He0)].
    + intros Hloop v e Hv. destruct (IH _ Hloop v e Hv) as [H|[H1 H2]]; [now left|].
      right. split; [now apply list_elem_of_further|exact H2].
    + intros Hloop v e Hv. destruct (IH _ Hloop v e Hv) as [H|[H1 H2]].
      * cbn [Statistics.models] in H. destruct (decide (k = v)) as [->|Hkv].
        -- rewrite lookup_insert_eq in H. injection H as <-.
           right. split; [apply list_elem_of_here|exact He0].
        -- rewrite lookup_insert_ne in H by exact Hkv. now left.
      * right. split; [now apply list_elem_of_further|exact H2].
Qed.

(** [get_statistics] returns on every tester, leaves it as it was, and
    its per-version map holds, for the versions of the policy that some
    record matches and for no other, an entry that sums those records up. *)
Lemma get_statistics_entries (t : ABTester) :
  exists stats,
    get_statistics t = (Return stats, t)
    /\ Statistics.total_requests stats = len (request_log t)
    /\ forall v,
         match Statistics.models stats !! v with
         | Some e => v ∈ keys (traffic_split t) /\ summarises (request_log t) v e
         | None => v ∉ keys (traffic_split t) \/ matching (request_log t) v = 0%nat
         end.
Proof.
  unfold get_statistics. rewrite bind_get.
  destruct (request_log t) as [|x log] eqn:Hlog.
  - exists {| Statistics.total_requests := 0; Statistics.models := ∅ |}.
    split; [reflexivity|]. split; [reflexivity|].
    intros v. cbn [Statistics.models]. rewrite lookup_empty. now right.
  - destruct (statistics_loop_spec (x :: log) (keys (traffic_split t))
                {| Statistics.total_requests := len (x :: log); Statistics.models := ∅ |} t)
      as (stats & Hloop & Htot & _ & _ & Hpos).
    exists stats. split; [exact Hloop|]. split; [exact Htot|].
    intros v. destruct (Statistics.models stats !! v) as [e|] eqn:Hv.
    + destruct (statistics_loop_entries _ _ _ _ _ _ Hloop v e Hv) as [H|H]; [|exact H].
      cbn [Statistics.models] in H. now rewrite lookup_empty in H.
    + destruct (decide (v ∈ keys (traffic_split t))) as [Hin|Hnin]; [|now left].
      right. destruct (matching (x :: log) v) eqn:Hm; [reflexivity|].
      destruct (Hpos v Hin ltac:(lia)) as (e & He & _). congruence.
Qed.

(** The count reported for a version of the policy is the number of
    records routed to it; for any other version it is 0. *)
Lemma get_statistics_reported_count (t : ABTester) (stats : Statistics.t) (t' : ABTester) :
  get_statistics t = (Return stats, t') ->
  forall v, reported_count stats v
            = if decide (v ∈ keys (traffic_split t))
              then Z.of_nat (matching (request_log t) v) else 0.
Proof.
  intros Hcall v.
  destruct (get_statistics_entries t) as (stats0 & Hcall0 & _ & Hent).
  rewrite Hcall0 in Hcall. injection Hcall as <- _.
  unfold reported_count. specialize (Hent v).
  destruct (Statistics.models stats0 !! v) as [e|]; simpl.
  - destruct Hent as (Hin & _ & Hcount & _). now rewrite decide_True.
  - destruct Hent as [Hnin| ->]; [now rewrite decide_False|].
    now destruct (decide _).
Qed.

Lemma matching_le (log : list LogEntry.t) (v : string) :
  (matching log v <= length log)%nat.
Proof. apply length_filter. Qed.

Lemma matching_app (log1 log2 : list LogEntry.t) (v : string) :
  matching (log1 ++ log2) v = (matching log1 v + matching log2 v)%nat.
Proof. unfold matching, model_requests_of. now rewrite filter_app, length_app. Qed.

Lemma routed_within_cons_key (k : string) (ks : list string) (log : list LogEntry.t) :
  k ∉ ks ->
  length (routed_within (k :: ks) log)
  = (matching log k + length (routed_within ks log))%nat.
Proof.
  intros Hk. unfold routed_within, matching, model_requests_of.
  induction log as [|r log IH]; [reflexivity|].
  rewrite !filter_cons.
  destruct (decide (LogEntry.model_version r = k)) as [Heq|Hne].
  - rewrite decide_True by (rewrite Heq; apply list_elem_of_here).
    rewrite decide_False by (rewrite Heq; exact Hk).
    simpl. now rewrite IH.
  - destruct (decide (LogEntry.model_version r ∈ ks)) as [Hin|Hnin].
    + rewrite decide_True by now apply list_elem_of_further.
      simpl. rewrite IH. lia.
    + rewrite decide_False; [exact IH|].
      intros [H|H]%elem_of_cons; contradiction.
Qed.

(** Over versions named once each, the matching records of the versions
    add up to the records routed to one of them. *)
Lemma matching_sum (log : list LogEntry.t) (ks : list string) :
  NoDup ks ->
  sum_int ((fun k => Z.of_nat (matching log k)) <$> ks)
  = len (routed_within ks log).
Proof.
  induction 1 as [|k ks Hk Hnd IH].
  - unfold len, routed_within. simpl.
    replace (filter _ log) with (@nil LogEntry.t); [reflexivity|].
    induction log as [|r log IHlog]; [reflexivity|].
    rewrite filter_cons, decide_False; [exact IHlog|]. apply not_elem_of_nil.
  - rewrite fmap_cons, sum_int_cons, IH. unfold len.
    rewrite routed_within_cons_key by exact Hk. lia.
Qed.

Lemma routed_within_all (ks : list string) (log : list LogEntry.t) :
  (forall r, r ∈ log -> LogEntry.model_version r ∈ ks) ->
  routed_within ks log = log.
Proof.
  unfold routed_within. induction log as [|r log IH]; intros Hall; [reflexivity|].
  rewrite filter_cons, decide_True by (apply Hall; apply list_elem_of_here).
  f_equal. apply IH. intros r' Hr'. now apply Hall, list_elem_of_further.
Qed.

(** ** Properties of the statistics beyond the empty log *)

(** X1.  On every tester [get_statistics] returns statistics in which
    every entry of the per-version map belongs to a version of the policy
    and counts the records routed to that version, at least one and at
    most [total_requests]: a record logged under a version the policy does
    not name enters the total and no entry. *)
Theorem statistics_entries_within_policy (t : ABTester) :
  exists stats,
    get_statistics t = (Return stats, t)
    /\ Statistics.total_requests stats = len (request_log t)
    /\ (forall v e, Statistics.models stats !! v = Some e ->
          v ∈ keys (traffic_split t)
          /\ ModelStatistics.request_count e = Z.of_nat (matching (request_log t) v)
          /\ 1 <= ModelStatistics.request_count e <= Statistics.total_requests stats)
    /\ (forall v, v ∉ keys (traffic_split t) -> Statistics.models stats !! v = None).
Proof.
  destruct (get_statistics_entries t) as (stats & Hcall & Htot & Hent).
  exists stats. split; [exact Hcall|]. split; [exact Htot|]. split.
  - intros v e Hv. specialize (Hent v). rewrite Hv in Hent.
    destruct Hent as (Hin & Hpos & Hcount & _).
    split; [exact Hin|]. split; [exact Hcount|].
    rewrite Hcount, Htot. unfold len.
    pose proof (matching_le (request_log t) v). lia.
  - intros v Hv. specialize (Hent v).
    destruct (Statistics.models stats !! v); [|reflexivity].
    now destruct Hent as [Hin _].
Qed.

Lemma get_statistics_counts_sum (t : ABTester) :
  NoDup (keys (traffic_split t)) ->
  exists stats,
    get_statistics t = (Return stats, t)
    /\ Statistics.total_requests stats = len (request_log t)
    /\ sum_int (reported_count stats <$> keys (traffic_split t))
       = len (routed_within (keys (traffic_split t)) (request_log t)).
Proof.
  intros Hnd.
  destruct (get_statistics_entries t) as (stats & Hcall & Htot & _).
  exists stats. split; [exact Hcall|]. split; [exact Htot|].
  rewrite <- (matching_sum _ _ Hnd). f_equal.
  apply Forall_fmap_ext_1, Forall_forall. intros k Hk.
  rewrite (get_statistics_reported_count _ _ _ Hcall).
  now rewrite decide_True.
Qed.

(** X2.  When the policy names each version once, the request counts
    [get_statistics] reports for the versions of the policy add up to the
    number of records routed to a version of the policy; that is at most
    [total_requests], and equal to it when every record was routed to a
    version of the policy. *)
Theorem statistics_counts_add_up (t : ABTester) :
  NoDup (keys (traffic_split t)) ->
  exists stats,
    get_statistics t = (Return stats, t)
    /\ sum_int (reported_count stats <$> keys (traffic_split t))
       = len (routed_within (keys (traffic_split t)) (request_log t))
    /\ sum_int (reported_count stats <$> keys (traffic_split t))
       <= Statistics.total_requests stats
    /\ ((forall r, r ∈ request_log t ->
                   LogEntry.model_version r ∈ keys (traffic_split t)) ->
        sum_int (reported_count stats <$> keys (traffic_split t))
        = Statistics.total_requests stats).
Proof.
  intros Hnd.
  destruct (get_statistics_counts_sum t Hnd) as (stats & Hcall & Htot & Hsum).
  exists stats. split; [exact Hcall|]. split; [exact Hsum|].
  rewrite Hsum, Htot. split.
  - unfold len, routed_within.
    pose proof (length_filter
                  (fun r => LogEntry.model_version r ∈ keys (traffic_split t))
                  (request_log t)). lia.
  - intros Hall. now rewrite routed_within_all.
Qed.

(** The default policy with a log that holds a record of v3: the counts
    of v1 and v2 add up to 1, the total is 2. *)
Lemma statistics_counts_add_up_witness :
  exists stats,
    get_statistics stray_tester = (Return stats, stray_tester)
    /\ sum_int (reported_count stats <$> keys (traffic_split stray_tester))
       = len (routed_within (keys (traffic_split stray_tester)) (request_log stray_tester))
    /\ sum_int (reported_count stats <$> keys (traffic_split stray_tester))
       <= Statistics.total_requests stats
    /\ ((forall r, r ∈ request_log stray_tester ->
                   LogEntry.model_version r ∈ keys (traffic_split stray_tester)) ->
        sum_int (reported_count stats <$> keys (traffic_split stray_tester))
        = Statistics.total_requests stats).
Proof.
  apply (statistics_counts_add_up stray_tester).
  apply (bool_decide_unpack _). reflexivity.
Defined.

(** X3.  In the statistics of every tester, the minimum and the maximum
    latency of an entry are latencies of records routed to its version, no
    such record has a latency strictly below the minimum or strictly above
    the maximum, and the maximum is not strictly below the minimum. *)
Theorem statistics_latency_extrema (t : ABTester) :
  exists stats,
    get_statistics t = (Return stats, t)
    /\ forall v e, Statistics.models stats !! v = Some e ->
         ModelStatistics.min_latency_ms e ∈ latencies_of (request_log t) v
         /\ ModelStatistics.max_latency_ms e ∈ latencies_of (request_log t) v
         /\ (forall x, x ∈ latencies_of (request_log t) v ->
               (x <? ModelStatistics.min_latency_ms e)%float = false
               /\ (ModelStatistics.max_latency_ms e <? x)%float = false)
         /\ (ModelStatistics.max_latency_ms e <? ModelStatistics.min_latency_ms e)%float
            = false.
Proof.
  destruct (get_statistics_entries t) as (stats & Hcall & _ & Hent).
  exists stats. split; [exact Hcall|].
  intros v e Hv. specialize (Hent v). rewrite Hv in Hent.
  destruct Hent as (_ & _ & _ & Hmin & Hmax).
  apply py_min_spec in Hmin as [Hmin_in Hmin_low].
  apply py_max_spec in Hmax as [Hmax_in Hmax_up].
  split; [exact Hmin_in|]. split; [exact Hmax_in|]. split.
  - intros x Hx. split; [now apply Hmin_low|now apply Hmax_up].
  - now apply Hmax_up.
Qed.

Lemma get_statistics_after_append (t : ABTester) (entry : LogEntry.t) :
  exists stats stats',
    get_statistics t = (Return stats, t)
    /\ get_statistics {| traffic_split := traffic_split t;
                         request_log := request_log t ++ [entry] |}
       = (Return stats', {| traffic_split := traffic_split t;
                            request_log := request_log t ++ [entry] |})
    /\ Statistics.total_requests stats' = Statistics.total_requests stats + 1
    /\ forall v, reported_count stats' v
                 = reported_count stats v
                   + (if decide (v = LogEntry.model_version entry
                                 /\ v ∈ keys (traffic_split t)) then 1 else 0).
Proof.
  set (t1 := {| traffic_split := traffic_split t;
                request_log := request_log t ++ [entry] |}).
  destruct (get_statistics_entries t) as (stats & Hcall & Htot & _).
  destruct (get_statistics_entries t1) as (stats' & Hcall' & Htot' & _).
  exists stats, stats'. split; [exact Hcall|]. split; [exact Hcall'|].
  split.
  - rewrite Htot, Htot'. unfold t1, len. simpl. rewrite length_app. simpl. lia.
  - intros v.
    rewrite (get_statistics_reported_count _ _ _ Hcall),
            (get_statistics_reported_count _ _ _ Hcall').
    unfold t1. simpl. rewrite matching_app.
    unfold matching at 2, model_requests_of. rewrite filter_cons, filter_nil.
    destruct (decide (v ∈ keys (traffic_split t))) as [Hin|Hnin].
    + destruct (decide (LogEntry.model_version entry = v)) as [Heq|Hne].
      * rewrite decide_True by now split. simpl. lia.
      * rewrite decide_False by (intros [-> _]; congruence). simpl. lia.
    + rewrite decide_False by (intros [_ ?]; contradiction). lia.
Qed.

(** X4.  Logging a request raises [total_requests] by one and the count
    reported for the logged version by one when the policy names that
    version; the counts reported for all other versions stay as they
    were. *)
Theorem statistics_after_log_request
    (t : ABTester) (mv : string) (p : Prediction.t) (latency : float)
    (request_id now : string) :
  exists stats stats',
    get_statistics t = (Return stats, t)
    /\ get_statistics (log_request mv p latency request_id now t).2
       = (Return stats', (log_request mv p latency request_id now t).2)
    /\ Statistics.total_requests stats' = Statistics.total_requests stats + 1
    /\ forall v, reported_count stats' v
                 = reported_count stats v
                   + (if decide (v = mv /\ v ∈ keys (traffic_split t)) then 1 else 0).
Proof.
  set (t1 := (log_request mv p latency request_id now t).2).
  destruct (get_statistics_entries t) as (stats & Hcall & Htot & _).
  destruct (get_statistics_entries t1) as (stats' & Hcall' & Htot' & _).
  exists stats, stats'. split; [exact Hcall|]. split; [exact Hcall'|].
  split.
  - rewrite Htot, Htot'. unfold t1, len. simpl. rewrite length_app. simpl. lia.
  - intros v.
    rewrite (get_statistics_reported_count _ _ _ Hcall),
            (get_statistics_reported_count _ _ _ Hcall').
    unfold t1. simpl. rewrite matching_app.
    unfold matching at 2, model_requests_of. rewrite filter_cons, filter_nil.
    cbn [LogEntry.model_version].
    destruct (decide (v ∈ keys (traffic_split t))) as [Hin|Hnin].
    + destruct (decide (mv = v)) as [->|Hne].
      * rewrite decide_True by now split. simpl. lia.
      * rewrite decide_False by (intros [-> _]; congruence). simpl. lia.
    + rewrite decide_False by (intros [_ ?]; contradiction). lia.
Qed.

(** ** Further properties of the constructor and of [select_model] *)

(** X5.  A policy with a single version routes every request to that
    version, whatever its weight and whatever the draw: the loop returns
    it when the draw is within the weight, the fallback returns it
    otherwise. *)
Theorem select_model_single_version
    (v : string) (w r : float) (user_id : option string) (log : list LogEntry.t) :
  select_model r user_id {| traffic_split := [(v, w)]; request_log := log |}
  = (Return v, {| traffic_split := [(v, w)]; request_log := log |}).
Proof.
  unfold select_model. rewrite bind_get. simpl.
  destruct (r <=? 0 + w)%float; reflexivity.
Qed.

(** X6.  A mapping one of whose weights is not a number is rejected by the
    constructor, whatever its other weights: the weight sum is then not a
    number either, and the [ValueError] reports it. *)
Theorem init_rejects_nan_weight (d : dict float) (w : float) :
  w ∈ values d ->
  is_nan w ->
  exists total,
    __init__ (Some d) = Raise (ValueError "Traffic split must sum to 1.0, got " total)
    /\ is_nan total.
Proof.
  intros Hin Hw. exists (sum_float (values d)).
  assert (Hnan : is_nan (sum_float (values d))) by (eapply is_nan_sum_float; eassumption).
  split; [|exact Hnan].
  destruct d as [|kw d]; [now apply elem_of_nil in Hin|].
  unfold __init__. simpl or_default. cbv zeta. cbn [traffic_split].
  unfold within_tolerance. now rewrite (is_nan_not_leb _ _ Hnan).
Qed.

(** The mapping [{"v1": nan, "v2": 0.5}]. *)
Lemma init_rejects_nan_weight_witness :
  exists total,
    __init__ (Some split_nan) = Raise (ValueError "Traffic split must sum to 1.0, got " total)
    /\ is_nan total.
Proof.
  apply (init_rejects_nan_weight split_nan PrimFloat.nan).
  - apply list_elem_of_here.
  - reflexivity.
Defined.

(** ** The tester along a sequence of calls *)

Lemma get_statistics_frame (t : ABTester) : (get_statistics t).2 = t.
Proof. destruct (get_statistics_entries t) as (stats & -> & _). reflexivity. Qed.

(** X7.  Along every sequence of method calls the policy of a tester stays
    the one it was constructed with, and its request log is append-only
    between resets: after the sequence it holds the entries logged since
    the last [reset_logs], in call order, behind the entries it held before
    when the sequence has no [reset_logs]. *)
Theorem after_calls_policy_and_log (t : ABTester) (cs : list Call) :
  traffic_split (after_calls t cs) = traffic_split t
  /\ request_log (after_calls t cs)
     = (if (logged_since_reset cs).1 then [] else request_log t)
       ++ (logged_since_reset cs).2.
Proof.
  revert t. induction cs as [|c cs IH]; intros t; simpl.
  - split; [reflexivity|]. now rewrite app_nil_r.
  - destruct (IH (after_call t c)) as [Hts Hlog].
    unfold after_calls in *. rewrite Hts, Hlog. clear Hts Hlog.
    destruct (logged_since_reset cs) as [reset entries]. simpl.
    destruct reset.
    + split; [|reflexivity].
      destruct c; simpl; try reflexivity;
        [now rewrite select_model_frame|now rewrite get_statistics_frame].
    + destruct c; simpl.
      * now rewrite select_model_frame.
      * split; [reflexivity|]. now rewrite <- app_assoc.
      * now rewrite get_statistics_frame.
      * split; reflexivity.
Qed.

(** ** The handlers, step by step *)

Lemma select_model_result (r : float) (user_id : option string) (t : ABTester) :
  select_model r user_id t = ((select_model r user_id t).1, t).
Proof.
  rewrite <- (select_model_frame r user_id t) at 3.
  now destruct (select_model r user_id t).
Qed.

(** What [select_model] returns is a key of the policy; it raises exactly
    on an empty policy. *)
Lemma select_model_Return_key (r : float) (user_id : option string) (t : ABTester)
    (v : string) :
  (select_model r user_id t).1 = Return v -> v ∈ keys (traffic_split t).
Proof.
  unfold select_model. rewrite bind_get.
  destruct (select_loop r 0%float (items (traffic_split t))) as [v'|] eqn:Hsel.
  - intros [= <-]. eapply select_loop_key, Hsel.
  - destruct (traffic_split t) as [|[k w] d]; [discriminate|].
    intros [= <-]. apply list_elem_of_here.
Qed.

Lemma select_model_nonempty (r : float) (user_id : option string) (t : ABTester) :
  traffic_split t <> [] -> exists v, (select_model r user_id t).1 = Return v.
Proof.
  intros Hne. unfold select_model. rewrite bind_get.
  destruct (select_loop r 0%float (items (traffic_split t))) as [v'|]; [now eexists|].
  destruct (traffic_split t) as [|[k w] d]; [congruence|]. now eexists.
Qed.

Lemma select_model_empty (r : float) (user_id : option string) (t : ABTester) :
  traffic_split t = [] ->
  (select_model r user_id t).1 = Raise (IndexError "list index out of range").
Proof. intros H. unfold select_model. rewrite bind_get, H. reflexivity. Qed.

Lemma on_ab_tester_None {A} (name : string) (method : M ABTester A) (g : Globals) :
  ab_tester g = None ->
  on_ab_tester name method g
  = (Raise (AttributeError ("'NoneType' object has no attribute '" +:+ name +:+ "'")), g).
Proof. intros H. unfold on_ab_tester. now rewrite H. Qed.

Lemma on_ab_tester_Some {A} (name : string) (method : M ABTester A) (g : Globals)
    (t : ABTester) :
  ab_tester g = Some t ->
  on_ab_tester name method g
  = ((method t).1,
     {| models := models g; ab_tester := Some (method t).2; metrics := metrics g |}).
Proof. intros H. unfold on_ab_tester. rewrite H. now destruct (method t). Qed.

(** [predict_churn], evaluated: the four ways it fails, each wrapped in an
    [HTTPException] with status 500 and with the globals untouched, and
    the one way it returns. *)
Lemma predict_churn_eval (env : Ambient) (customer : CustomerData.t)
    (user_id : option string) (g : Globals) :
  predict_churn env customer user_id g =
    match ab_tester g with
    | None =>
        (Raise (HTTPException 500
                  (AttributeError "'NoneType' object has no attribute 'select_model'")), g)
    | Some t =>
        match (select_model (random env) user_id t).1 with
        | Raise e => (Raise (HTTPException 500 e), g)
        | Return v =>
            match models g !! v with
            | None => (Raise (HTTPException 500 (KeyError v)), g)
            | Some predictor =>
                match ChurnPredictor.predict predictor customer with
                | Raise e => (Raise (HTTPException 500 e), g)
                | Return p =>
                    (Return (response_built env v p),
                     globals_after_prediction g t env v p)
                end
            end
        end
    end.
Proof.
  unfold predict_churn, try_except. unfold bind at 1.
  destruct (ab_tester g) as [t|] eqn:Ht.
  - rewrite (on_ab_tester_Some _ _ _ _ Ht), select_model_frame.
    rewrite (globals_eta _ _ Ht).
    destruct (select_model (random env) user_id t).1 as [e|v]; [reflexivity|].
    unfold bind at 1. unfold models_getitem at 1. rewrite bind_get.
    destruct (models g !! v) as [predictor|]; [|reflexivity].
    unfold ret at 1. unfold bind at 1. unfold lift at 1.
    destruct (ChurnPredictor.predict predictor customer) as [e|p]; [reflexivity|].
    unfold bind, emit, get, put, ret, on_ab_tester, log_request. simpl.
    rewrite Ht. unfold globals_after_prediction, events_emitted.
    rewrite <- !app_assoc. reflexivity.
  - rewrite (on_ab_tester_None _ _ _ Ht). reflexivity.
Qed.

(** ** Properties of the handlers *)

(** X8.  A call of [predict_churn] that returns was served by the predictor
    registered under the version [select_model] returned, which is a
    version of the policy; the response and the logged record carry that
    version, that predictor's prediction and the latency measured around
    its call, three metric events are emitted, and [models] and the policy
    are left as they were. *)
Theorem predict_churn_served_by_selected
    (env : Ambient) (customer : CustomerData.t) (user_id : option string)
    (g g' : Globals) (response : PredictionResponse.t) :
  predict_churn env customer user_id g = (Return response, g') ->
  exists t v predictor p,
    ab_tester g = Some t
    /\ (select_model (random env) user_id t).1 = Return v
    /\ v ∈ keys (traffic_split t)
    /\ models g !! v = Some predictor
    /\ ChurnPredictor.predict predictor customer = Return p
    /\ response = response_built env v p
    /\ g' = globals_after_prediction g t env v p.
Proof.
  rewrite predict_churn_eval.
  destruct (ab_tester g) as [t|]; [|discriminate].
  destruct (select_model (random env) user_id t).1 as [e|v] eqn:Hsel; [discriminate|].
  destruct (models g !! v) as [predictor|] eqn:Hv; [|discriminate].
  destruct (ChurnPredictor.predict predictor customer) as [e|p] eqn:Hp; [discriminate|].
  intros [= <- <-]. exists t, v, predictor, p.
  repeat split; try assumption. eapply select_model_Return_key, Hsel.
Qed.

(** The sample request on the started globals: v1 serves it. *)
Lemma predict_churn_served_by_selected_witness :
  exists t v predictor p,
    ab_tester started_globals = Some t
    /\ (select_model (random sample_env) None t).1 = Return v
    /\ v ∈ keys (traffic_split t)
    /\ models started_globals !! v = Some predictor
    /\ ChurnPredictor.predict predictor sample_customer = Return p
    /\ response_built sample_env "v1" sample_prediction = response_built sample_env v p
    /\ served_globals = globals_after_prediction started_globals t sample_env v p.
Proof.
  apply (predict_churn_served_by_selected sample_env sample_customer None
           started_globals served_globals
           (response_built sample_env "v1" sample_prediction)).
  reflexivity.
Defined.

(** X9.  A call of [predict_churn] that fails has one of four causes, which
    the [HTTPException] carries: no tester exists yet ([AttributeError]),
    the policy is empty ([IndexError] of the fallback), the selected
    version is not a key of [models] ([KeyError]), or the selected model's
    [predict] raised (its exception). *)
Theorem predict_churn_failure_causes
    (env : Ambient) (customer : CustomerData.t) (user_id : option string)
    (g g' : Globals) (e : exn) :
  predict_churn env customer user_id g = (Raise e, g') ->
  g' = g
  /\ ((ab_tester g = None
       /\ e = HTTPException 500
                (AttributeError "'NoneType' object has no attribute 'select_model'"))
      \/ (exists t, ab_tester g = Some t /\ traffic_split t = []
                    /\ e = HTTPException 500 (IndexError "list index out of range"))
      \/ (exists t v, ab_tester g = Some t
                      /\ (select_model (random env) user_id t).1 = Return v
                      /\ models g !! v = None
                      /\ e = HTTPException 500 (KeyError v))
      \/ (exists t v predictor cause,
            ab_tester g = Some t
            /\ (select_model (random env) user_id t).1 = Return v
            /\ models g !! v = Some predictor
            /\ ChurnPredictor.predict predictor customer = Raise cause
            /\ e = HTTPException 500 cause)).
Proof.
  rewrite predict_churn_eval.
  destruct (ab_tester g) as [t|] eqn:Ht.
  - destruct (select_model (random env) user_id t).1 as [e0|v] eqn:Hsel.
    + intros [= <- <-]. split; [reflexivity|]. right. left. exists t.
      destruct (traffic_split t) as [|kw d] eqn:Hts.
      * rewrite (select_model_empty _ _ _ Hts) in Hsel. injection Hsel as <-.
        now repeat split.
      * destruct (select_model_nonempty (random env) user_id t) as [v Hv];
          [now rewrite Hts|congruence].
    + destruct (models g !! v) as [predictor|] eqn:Hv.
      * destruct (ChurnPredictor.predict predictor customer) as [cause|p] eqn:Hp;
          [|discriminate].
        intros [= <- <-]. split; [reflexivity|]. do 3 right.
        exists t, v, predictor, cause. now repeat split.
      * intros [= <- <-]. split; [reflexivity|]. right. right. left.
        exists t, v. now repeat split.
  - intros [= <- <-]. split; [reflexivity|]. left. now split.
Qed.

(** The policy that names only v3 against a registry of v1 and v2. *)
Lemma predict_churn_failure_causes_witness :
  unknown_version_globals = unknown_version_globals
  /\ ((ab_tester unknown_version_globals = None
       /\ HTTPException 500 (KeyError "v3")
          = HTTPException 500
              (AttributeError "'NoneType' object has no attribute 'select_model'"))
      \/ (exists t, ab_tester unknown_version_globals = Some t /\ traffic_split t = []
                    /\ HTTPException 500 (KeyError "v3")
                       = HTTPException 500 (IndexError "list index out of range"))
      \/ (exists t v, ab_tester unknown_version_globals = Some t
                      /\ (select_model (random sample_env) None t).1 = Return v
                      /\ models unknown_version_globals !! v = None
                      /\ HTTPException 500 (KeyError "v3") = HTTPException 500 (KeyError v))
      \/ (exists t v predictor cause,
            ab_tester unknown_version_globals = Some t
            /\ (select_model (random sample_env) None t).1 = Return v
            /\ models unknown_version_globals !! v = Some predictor
            /\ ChurnPredictor.predict predictor sample_customer = Raise cause
            /\ HTTPException 500 (KeyError "v3") = HTTPException 500 cause)).
Proof.
  apply (predict_churn_failure_causes sample_env sample_customer None
           unknown_version_globals unknown_version_globals
           (HTTPException 500 (KeyError "v3"))).
  reflexivity.
Defined.

(** X10.  Before the start-up hook has assigned a tester, the three
    handlers fail and change nothing: [predict_churn] with an
    [HTTPException] of status 500, [get_ab_stats] and [reset_ab_stats],
    which catch nothing, with the bare [AttributeError]. *)
Theorem handlers_before_startup
    (env : Ambient) (customer : CustomerData.t) (user_id : option string) (g : Globals) :
  ab_tester g = None ->
  predict_churn env customer user_id g
  = (Raise (HTTPException 500
              (AttributeError "'NoneType' object has no attribute 'select_model'")), g)
  /\ get_ab_stats g
     = (Raise (AttributeError "'NoneType' object has no attribute 'get_statistics'"), g)
  /\ reset_ab_stats g
     = (Raise (AttributeError "'NoneType' object has no attribute 'reset_logs'"), g).
Proof.
  intros Ht. rewrite predict_churn_eval, Ht.
  unfold get_ab_stats, reset_ab_stats. rewrite !(on_ab_tester_None _ _ _ Ht).
  repeat split.
Qed.

(** The globals of a process that has not started. *)
Lemma handlers_before_startup_witness :
  predict_churn sample_env sample_customer None fresh_globals
  = (Raise (HTTPException 500
              (AttributeError "'NoneType' object has no attribute 'select_model'")),
     fresh_globals)
  /\ get_ab_stats fresh_globals
     = (Raise (AttributeError "'NoneType' object has no attribute 'get_statistics'"),
        fresh_globals)
  /\ reset_ab_stats fresh_globals
     = (Raise (AttributeError "'NoneType' object has no attribute 'reset_logs'"),
        fresh_globals).
Proof.
  exact (handlers_before_startup sample_env sample_customer None fresh_globals eq_refl).
Defined.

Lemma get_ab_stats_Some (g : Globals) (t : ABTester) :
  ab_tester g = Some t ->
  exists stats, get_ab_stats g = (Return stats, g)
                /\ get_statistics t = (Return stats, t).
Proof.
  intros Ht. destruct (get_statistics_entries t) as (stats & Hcall & _).
  exists stats. split; [|exact Hcall].
  unfold get_ab_stats. rewrite (on_ab_tester_Some _ _ _ _ Ht), Hcall. simpl.
  now rewrite (globals_eta _ _ Ht).
Qed.

Lemma reset_ab_stats_Some (g : Globals) (t : ABTester) :
  ab_tester g = Some t ->
  reset_ab_stats g
  = (Return tt,
     {| models := models g;
        ab_tester := Some {| traffic_split := traffic_split t; request_log := [] |};
        metrics := metrics g |}).
Proof.
  intros Ht. unfold reset_ab_stats. now rewrite (on_ab_tester_Some _ _ _ _ Ht).
Qed.

(** Handling one request keeps [models] and the policy, and keeps the
    globals serving. *)
Lemma handle_keeps_serving (g : Globals) (q : Request) :
  serving g ->
  serving (handle g q)
  /\ models (handle g q) = models g
  /\ (traffic_split <$> ab_tester (handle g q)) = (traffic_split <$> ab_tester g).
Proof.
  intros (t & Ht & Hne & Hnd & Hkeys & Hlog).
  destruct q as [env customer user_id| |]; simpl.
  - rewrite predict_churn_eval, Ht.
    destruct (select_model (random env) user_id t).1 as [e|v] eqn:Hsel;
      [simpl; rewrite Ht; split; [now exists t|now split]|].
    destruct (models g !! v) as [predictor|];
      [|simpl; rewrite Ht; split; [now exists t|now split]].
    destruct (ChurnPredictor.predict predictor customer) as [e|p];
      [simpl; rewrite Ht; split; [now exists t|now split]|].
    simpl. split; [|now split].
    eexists. split; [reflexivity|]. simpl. repeat split; try assumption.
    intros r [Hr|Hr]%elem_of_app; [now apply Hlog|].
    apply list_elem_of_singleton in Hr as ->. simpl.
    eapply select_model_Return_key, Hsel.
  - destruct (get_ab_stats_Some g t Ht) as (stats & -> & _). simpl.
    rewrite Ht. split; [now exists t|now split].
  - rewrite (reset_ab_stats_Some g t Ht). simpl. rewrite Ht. split; [|now split].
    eexists. split; [reflexivity|]. simpl. repeat split; try assumption.
    intros r Hr. now apply elem_of_nil in Hr.
Qed.

(** X11.  While the globals serve (a tester exists, its policy is not
    empty and every version of it is a key of [models]), [predict_churn]
    fails only when the selected model's [predict] raises: the selected
    version is a version of the policy with a registered predictor, the
    call returns the response built from that predictor's prediction when
    it returns one, and fails with its exception as cause, the globals
    untouched, when it raises. *)
Theorem predict_churn_while_serving
    (env : Ambient) (customer : CustomerData.t) (user_id : option string) (g : Globals) :
  serving g ->
  exists t v predictor,
    ab_tester g = Some t
    /\ v ∈ keys (traffic_split t)
    /\ models g !! v = Some predictor
    /\ predict_churn env customer user_id g
       = match ChurnPredictor.predict predictor customer with
         | Return p => (Return (response_built env v p),
                        globals_after_prediction g t env v p)
         | Raise e => (Raise (HTTPException 500 e), g)
         end.
Proof.
  intros (t & Ht & Hne & _ & Hkeys & _).
  destruct (select_model_nonempty (random env) user_id t Hne) as [v Hsel].
  pose proof (select_model_Return_key _ _ _ _ Hsel) as Hv.
  destruct (Hkeys v Hv) as [predictor Hpred].
  exists t, v, predictor. split; [exact Ht|]. split; [exact Hv|]. split; [exact Hpred|].
  now rewrite predict_churn_eval, Ht, Hsel, Hpred.
Qed.

(** The sample request on the started globals. *)
Lemma predict_churn_while_serving_witness :
  exists t v predictor,
    ab_tester started_globals = Some t
    /\ v ∈ keys (traffic_split t)
    /\ models started_globals !! v = Some predictor
    /\ predict_churn sample_env sample_customer None started_globals
       = match ChurnPredictor.predict predictor sample_customer with
         | Return p => (Return (response_built sample_env v p),
                        globals_after_prediction started_globals t sample_env v p)
         | Raise e => (Raise (HTTPException 500 e), started_globals)
         end.
Proof.
  apply (predict_churn_while_serving sample_env sample_customer None started_globals).
  exists default_tester. split; [reflexivity|]. split; [discriminate|].
  split; [apply (bool_decide_unpack _); reflexivity|]. split.
  - intros v Hv. simpl in Hv.
    apply elem_of_cons in Hv as [->|Hv]; [now eexists|].
    apply list_elem_of_singleton in Hv as ->. now eexists.
  - intros r Hr. now apply elem_of_nil in Hr.
Defined.

Lemma serve_serving (g : Globals) (qs : list Request) :
  serving g -> serving (serve g qs).
Proof.
  revert g. induction qs as [|q qs IH]; intros g Hg; simpl; [exact Hg|].
  apply IH. now apply handle_keeps_serving.
Qed.

(** X12.  Serving is kept by every sequence of requests to the three
    handlers: after it a tester still exists, with the policy it had,
    [models] is unchanged, every version of the policy is still
    registered, and every logged request was routed to a version of the
    policy. *)
Theorem serve_keeps_serving (g : Globals) (qs : list Request) :
  serving g ->
  serving (serve g qs)
  /\ models (serve g qs) = models g
  /\ (traffic_split <$> ab_tester (serve g qs)) = (traffic_split <$> ab_tester g).
Proof.
  intros Hg. split; [now apply serve_serving|].
  revert g Hg. induction qs as [|q qs IH]; intros g Hg; simpl; [now split|].
  destruct (handle_keeps_serving g q Hg) as (Hg' & Hmodels & Hpolicy).
  destruct (IH _ Hg') as (Hm & Hp). unfold serve in *. split; congruence.
Qed.

(** The started globals after a prediction, a statistics query, a reset
    and a second prediction. *)
Lemma serve_keeps_serving_witness :
  serving (serve started_globals
             [PostPredict sample_env sample_customer None; GetStats; PostReset;
              PostPredict sample_env sample_customer (Some "user-7")])
  /\ models (serve started_globals
              [PostPredict sample_env sample_customer None; GetStats; PostReset;
               PostPredict sample_env sample_customer (Some "user-7")])
     = models started_globals
  /\ (traffic_split <$> ab_tester
        (serve started_globals
           [PostPredict sample_env sample_customer None; GetStats; PostReset;
            PostPredict sample_env sample_customer (Some "user-7")]))
     = (traffic_split <$> ab_tester started_globals).
Proof.
  apply (serve_keeps_serving started_globals).
  exists default_tester. split; [reflexivity|]. split; [discriminate|].
  split; [apply (bool_decide_unpack _); reflexivity|]. split.
  - intros v Hv. simpl in Hv.
    apply elem_of_cons in Hv as [->|Hv]; [now eexists|].
    apply list_elem_of_singleton in Hv as ->. now eexists.
  - intros r Hr. now apply elem_of_nil in Hr.
Defined.

(** X13.  When both models load, the start-up hook returns with the two
    predictors stored under ["v1"] and ["v2"] and a fresh tester with the
    policy [{"v1": 0.5, "v2": 0.5}] and an empty log; from then on the
    globals serve. *)
Theorem lifespan_starts_serving
    (load : string -> result ChurnPredictor.t) (g : Globals)
    (v1 v2 : ChurnPredictor.t) :
  load "v1" = Return v1 ->
  load "v2" = Return v2 ->
  lifespan load g
  = (Return tt,
     {| models := <["v2" := v2]> (<["v1" := v1]> (models g));
        ab_tester := Some default_tester;
        metrics := metrics g |})
  /\ serving (lifespan load g).2.
Proof.
  intros H1 H2.
  assert (Hrun : lifespan load g
                 = (Return tt,
                    {| models := <["v2" := v2]> (<["v1" := v1]> (models g));
                       ab_tester := Some default_tester;
                       metrics := metrics g |})).
  { unfold lifespan, try_except, bind, lift. rewrite H1. simpl. rewrite H2. reflexivity. }
  split; [exact Hrun|]. rewrite Hrun. simpl.
  exists default_tester. split; [reflexivity|]. split; [discriminate|].
  split; [apply (bool_decide_unpack _); reflexivity|]. split.
  - intros v Hv. simpl in Hv. cbn [models].
    apply elem_of_cons in Hv as [->|Hv].
    + rewrite lookup_insert_ne by discriminate. rewrite lookup_insert_eq. now eexists.
    + apply list_elem_of_singleton in Hv as ->. rewrite lookup_insert_eq. now eexists.
  - intros r Hr. now apply elem_of_nil in Hr.
Qed.

(** Start-up of a fresh process whose loader finds both models. *)
Lemma lifespan_starts_serving_witness :
  lifespan load_constant fresh_globals = (Return tt, started_globals)
  /\ serving (lifespan load_constant fresh_globals).2.
Proof.
  exact (lifespan_starts_serving load_constant fresh_globals
           (constant_predictor "v1" 1 0.9%float) (constant_predictor "v2" 1 0.9%float)
           eq_refl eq_refl).
Defined.

(** X14.  A start-up that fails re-raises the loader's exception and never
    assigns the tester: either v1 failed to load and the globals are
    untouched, or v1 is stored in [models] and v2 failed to load. *)
Theorem lifespan_failure_keeps_tester
    (load : string -> result ChurnPredictor.t) (g g' : Globals) (e : exn) :
  lifespan load g = (Raise e, g') ->
  ab_tester g' = ab_tester g
  /\ metrics g' = metrics g
  /\ ((load "v1" = Raise e /\ g' = g)
      \/ (exists v1, load "v1" = Return v1 /\ load "v2" = Raise e
                     /\ models g' = <["v1" := v1]> (models g))).
Proof.
  unfold lifespan, try_except, bind, lift.
  destruct (load "v1") as [e1|v1] eqn:H1; simpl.
  - intros [= <- <-]. repeat split. now left.
  - destruct (load "v2") as [e2|v2] eqn:H2; simpl.
    + intros [= <- <-]. repeat split. right. now exists v1.
    + discriminate.
Qed.

(** A loader that finds v1 and fails on v2. *)
Lemma lifespan_failure_keeps_tester_witness :
  ab_tester {| models := <["v1" := constant_predictor "v1" 1 0.9%float]> ∅;
               ab_tester := None; metrics := [] |} = ab_tester fresh_globals
  /\ metrics {| models := <["v1" := constant_predictor "v1" 1 0.9%float]> ∅;
                ab_tester := None; metrics := [] |} = metrics fresh_globals
  /\ ((load_v1_only "v1" = Raise (Raised "Failed to load model v2")
       /\ {| models := <["v1" := constant_predictor "v1" 1 0.9%float]> ∅;
             ab_tester := None; metrics := [] |} = fresh_globals)
      \/ (exists v1, load_v1_only "v1" = Return v1
                     /\ load_v1_only "v2" = Raise (Raised "Failed to load model v2")
                     /\ models {| models := <["v1" := constant_predictor "v1" 1 0.9%float]> ∅;
                                  ab_tester := None; metrics := [] |}
                        = <["v1" := v1]> (models fresh_globals))).
Proof.
  apply (lifespan_failure_keeps_tester load_v1_only fresh_globals
           {| models := <["v1" := constant_predictor "v1" 1 0.9%float]> ∅;
              ab_tester := None; metrics := [] |}
           (Raised "Failed to load model v2")).
  reflexivity.
Defined.

(** X15.  After a call of [predict_churn] that returned, [get_ab_stats]
    reports one request more in total and one request more for the version
    named in the response, and the same count as before for every other
    version. *)
Theorem stats_after_predict
    (env : Ambient) (customer : CustomerData.t) (user_id : option string)
    (g g' : Globals) (response : PredictionResponse.t) :
  predict_churn env customer user_id g = (Return response, g') ->
  exists stats stats',
    get_ab_stats g = (Return stats, g)
    /\ get_ab_stats g' = (Return stats', g')
    /\ Statistics.total_requests stats' = Statistics.total_requests stats + 1
    /\ forall v, reported_count stats' v
                 = reported_count stats v
                   + (if decide (v = PredictionResponse.model_version response)
                      then 1 else 0).
Proof.
  rewrite predict_churn_eval.
  destruct (ab_tester g) as [t|] eqn:Ht; [|discriminate].
  destruct (select_model (random env) user_id t).1 as [e|v] eqn:Hsel; [discriminate|].
  destruct (models g !! v) as [predictor|] eqn:Hv; [|discriminate].
  destruct (ChurnPredictor.predict predictor customer) as [e|p] eqn:Hp; [discriminate|].
  intros [= <- <-].
  destruct (get_statistics_after_append t (entry_logged env v p))
    as (stats & stats' & Hcall & Hcall' & Htot & Hcount).
  exists stats, stats'.
  destruct (get_ab_stats_Some g t Ht) as (stats0 & Hg & Hcall0).
  rewrite Hcall in Hcall0. injection Hcall0 as <-.
  destruct (get_ab_stats_Some (globals_after_prediction g t env v p) _ eq_refl)
    as (stats1 & Hg' & Hcall1).
  rewrite Hcall' in Hcall1. injection Hcall1 as <-.
  split; [exact Hg|]. split; [exact Hg'|]. split; [exact Htot|].
  intros v'. rewrite Hcount. cbn [entry_logged LogEntry.model_version
    response_built PredictionResponse.model_version].
  pose proof (select_model_Return_key _ _ _ _ Hsel) as Hin.
  destruct (decide (v' = v)) as [->|Hne].
  - now rewrite decide_True.
  - rewrite decide_False; [reflexivity|]. now intros [? _].
Qed.

(** The sample request on the started globals. *)
Lemma stats_after_predict_witness :
  exists stats stats',
    get_ab_stats started_globals = (Return stats, started_globals)
    /\ get_ab_stats served_globals = (Return stats', served_globals)
    /\ Statistics.total_requests stats' = Statistics.total_requests stats + 1
    /\ forall v, reported_count stats' v
                 = reported_count stats v
                   + (if decide (v = PredictionResponse.model_version
                                       (response_built sample_env "v1" sample_prediction))
                      then 1 else 0).
Proof.
  apply (stats_after_predict sample_env sample_customer None started_globals
           served_globals (response_built sample_env "v1" sample_prediction)).
  reflexivity.
Defined.

(** X16.  When a tester exists, [reset_ab_stats] returns, and
    [get_ab_stats] right after it reports no request and an empty
    per-version map; the reset keeps the policy, [models] and the state of
    the metrics registry, whose counters are not reset. *)
Theorem reset_then_stats (g : Globals) (t : ABTester) :
  ab_tester g = Some t ->
  exists g0,
    reset_ab_stats g = (Return tt, g0)
    /\ get_ab_stats g0
       = (Return {| Statistics.total_requests := 0; Statistics.models := ∅ |}, g0)
    /\ ab_tester g0 = Some {| traffic_split := traffic_split t; request_log := [] |}
    /\ models g0 = models g
    /\ metrics g0 = metrics g.
Proof.
  intros Ht. eexists. split; [apply (reset_ab_stats_Some g t Ht)|].
  split; [|now repeat split].
  unfold get_ab_stats. erewrite on_ab_tester_Some by reflexivity. reflexivity.
Qed.

(** The globals after the sample request was served: the log is cleared,
    the three metric events stay. *)
Lemma reset_then_stats_witness :
  exists g0,
    reset_ab_stats served_globals = (Return tt, g0)
    /\ get_ab_stats g0
       = (Return {| Statistics.total_requests := 0; Statistics.models := ∅ |}, g0)
    /\ ab_tester g0 = Some {| traffic_split := default_traffic_split; request_log := [] |}
    /\ models g0 = models served_globals
    /\ metrics g0 = metrics served_globals.
Proof.
  exact (reset_then_stats served_globals
           {| traffic_split := default_traffic_split;
              request_log := [entry_logged sample_env "v1" sample_prediction] |}
           eq_refl).
Defined.

(** X17.  While the globals serve, after every sequence of requests to the
    three handlers [get_ab_stats] returns statistics in which the request
    counts reported for the versions of the policy add up to
    [total_requests]. *)
Theorem stats_add_up_while_serving (g : Globals) (qs : list Request) :
  serving g ->
  exists t stats,
    ab_tester (serve g qs) = Some t
    /\ get_ab_stats (serve g qs) = (Return stats, serve g qs)
    /\ sum_int (reported_count stats <$> keys (traffic_split t))
       = Statistics.total_requests stats.
Proof.
  intros Hg. destruct (serve_serving g qs Hg) as (t & Ht & _ & Hnd & _ & Hlog).
  destruct (get_ab_stats_Some _ t Ht) as (stats & Hstats & Hcall).
  exists t, stats. split; [exact Ht|]. split; [exact Hstats|].
  destruct (get_statistics_counts_sum t Hnd) as (stats0 & Hcall0 & Htot & Hsum).
  rewrite Hcall in Hcall0. injection Hcall0 as <-.
  now rewrite Hsum, Htot, routed_within_all.
Qed.

(** The started globals after two predictions with a statistics query in
    between. *)
Lemma stats_add_up_while_serving_witness :
  exists t stats,
    ab_tester (serve started_globals
                 [PostPredict sample_env sample_customer None; GetStats;
                  PostPredict sample_env sample_customer (Some "user-7")]) = Some t
    /\ get_ab_stats (serve started_globals
                       [PostPredict sample_env sample_customer None; GetStats;
                        PostPredict sample_env sample_customer (Some "user-7")])
       = (Return stats,
          serve started_globals
            [PostPredict sample_env sample_customer None; GetStats;
             PostPredict sample_env sample_customer (Some "user-7")])
    /\ sum_int (reported_count stats <$> keys (traffic_split t))
       = Statistics.total_requests stats.
Proof.
  apply (stats_add_up_while_serving started_globals).
  exists default_tester. split; [reflexivity|]. split; [discriminate|].
  split; [apply (bool_decide_unpack _); reflexivity|]. split.
  - intros v Hv. simpl in Hv.
    apply elem_of_cons in Hv as [->|Hv]; [now eexists|].
    apply list_elem_of_singleton in Hv as ->. now eexists.
  - intros r Hr. now apply elem_of_nil in Hr.
Defined.

(** ** Properties of [ChurnPredictor.predict] *)

Lemma getitem_Return {A} (xs : list A) (i : nat) (x : A) :
  getitem xs i = Return x -> xs !! i = Some x.
Proof. unfold getitem. destruct (xs !! i); [now intros [= ->]|discriminate]. Qed.

(** What a returned prediction dict holds. *)
Lemma predict_Return (a : Artifacts) (mv : string) (data : CustomerData.t)
    (p : Prediction.t) :
  predict a mv data = Return p ->
  exists X probability,
    preprocess_input a data = Return X
    /\ model_predict a X = Return (Prediction.prediction p)
    /\ model_predict_proba a X = Return probability
    /\ probability !! 1%nat = Some (Prediction.churn_probability p)
    /\ py_max probability = Return (Prediction.confidence p)
    /\ Prediction.will_churn p = Z.eqb (Prediction.prediction p) 1
    /\ Prediction.model_version p = mv.
Proof.
  unfold predict, and_then.
  destruct (preprocess_input a data) as [e|X]; [discriminate|].
  destruct (model_predict a X) as [e|label] eqn:Hlabel; [discriminate|].
  destruct (model_predict_proba a X) as [e|probability] eqn:Hproba; [discriminate|].
  destruct (getitem probability 1) as [e|churn] eqn:Hget; [discriminate|].
  destruct (py_max probability) as [e|confidence] eqn:Hmax; [discriminate|].
  intros [= <-]. exists X, probability. simpl.
  repeat split; try reflexivity; try assumption. now apply getitem_Return.
Qed.

(** X18.  A prediction dict [predict] returns carries the version of the
    predictor, the label of the classifier and, as [churn_probability],
    the probability of class 1; [will_churn] is set exactly for label 1;
    [confidence] is one of the class probabilities, no class probability
    is strictly above it, and so it is not strictly below
    [churn_probability]. *)
Theorem predict_confidence_bounds (a : Artifacts) (mv : string) (data : CustomerData.t)
    (p : Prediction.t) :
  predict a mv data = Return p ->
  exists X probability,
    preprocess_input a data = Return X
    /\ model_predict a X = Return (Prediction.prediction p)
    /\ model_predict_proba a X = Return probability
    /\ Prediction.model_version p = mv
    /\ Prediction.will_churn p = Z.eqb (Prediction.prediction p) 1
    /\ probability !! 1%nat = Some (Prediction.churn_probability p)
    /\ Prediction.confidence p ∈ probability
    /\ (forall x, x ∈ probability -> (Prediction.confidence p <? x)%float = false)
    /\ (Prediction.confidence p <? Prediction.churn_probability p)%float = false.
Proof.
  intros Hp.
  destruct (predict_Return _ _ _ _ Hp)
    as (X & probability & HX & Hlabel & Hproba & Hchurn & Hmax & Hwill & Hmv).
  apply py_max_spec in Hmax as [Hin Hup].
  exists X, probability. repeat split; try assumption.
  apply Hup. eapply list_elem_of_lookup_2, Hchurn.
Qed.

(** The two-class artifacts with probabilities 0.2 and 0.8. *)
Lemma predict_confidence_bounds_witness :
  exists X probability,
    preprocess_input constant_artifacts sample_customer = Return X
    /\ model_predict constant_artifacts X = Return 1
    /\ model_predict_proba constant_artifacts X = Return probability
    /\ "v1" = "v1"
    /\ true = Z.eqb 1 1
    /\ probability !! 1%nat = Some 0.8%float
    /\ 0.8%float ∈ probability
    /\ (forall x, x ∈ probability -> (0.8 <? x)%float = false)
    /\ (0.8 <? 0.8)%float = false.
Proof.
  exact (predict_confidence_bounds constant_artifacts "v1" sample_customer
           {| Prediction.model_version := "v1";
              Prediction.prediction := 1;
              Prediction.churn_probability := 0.8%float;
              Prediction.will_churn := true;
              Prediction.confidence := 0.8%float |}
           eq_refl).
Defined.



(** X20.  When every registered predictor is a [ChurnPredictor] built from
    loaded artifacts, a response [predict_churn] returns has [will_churn]
    set exactly for label 1 and a [confidence] that is not strictly below
    its [churn_probability]. *)
Theorem response_confidence_bounds
    (env : Ambient) (customer : CustomerData.t) (user_id : option string)
    (g g' : Globals) (response : PredictionResponse.t) :
  (forall v predictor, models g !! v = Some predictor ->
     exists a mv, predictor = loaded_predictor a mv) ->
  predict_churn env customer user_id g = (Return response, g') ->
  PredictionResponse.will_churn response
  = Z.eqb (PredictionResponse.prediction response) 1
  /\ (PredictionResponse.confidence response
      <? PredictionResponse.churn_probability response)%float = false.
Proof.
  intros Hloaded. rewrite predict_churn_eval.
  destruct (ab_tester g) as [t|]; [|discriminate].
  destruct (select_model (random env) user_id t).1 as [e|v]; [discriminate|].
  destruct (models g !! v) as [predictor|] eqn:Hv; [|discriminate].
  destruct (Hloaded v predictor Hv) as (a & mv & ->). simpl.
  destruct (predict a mv customer) as [e|p] eqn:Hp; [discriminate|].
  intros [= <- _]. simpl.
  destruct (predict_Return _ _ _ _ Hp)
    as (X & probability & _ & _ & _ & Hchurn & Hmax & Hwill & _).
  split; [exact Hwill|].
  apply py_max_spec in Hmax as [_ Hup].
  apply Hup. eapply list_elem_of_lookup_2, Hchurn.
Qed.

(** The sample request on globals whose predictors are built from the
    two-class artifacts. *)
Lemma response_confidence_bounds_witness :
  PredictionResponse.will_churn
    (response_built sample_env "v1"
       {| Prediction.model_version := "v1"; Prediction.prediction := 1;
          Prediction.churn_probability := 0.8%float; Prediction.will_churn := true;
          Prediction.confidence := 0.8%float |})
  = Z.eqb (PredictionResponse.prediction
             (response_built sample_env "v1"
                {| Prediction.model_version := "v1"; Prediction.prediction := 1;
                   Prediction.churn_probability := 0.8%float;
                   Prediction.will_churn := true;
                   Prediction.confidence := 0.8%float |})) 1
  /\ (PredictionResponse.confidence
        (response_built sample_env "v1"
           {| Prediction.model_version := "v1"; Prediction.prediction := 1;
              Prediction.churn_probability := 0.8%float; Prediction.will_churn := true;
              Prediction.confidence := 0.8%float |})
      <? PredictionResponse.churn_probability
           (response_built sample_env "v1"
              {| Prediction.model_version := "v1"; Prediction.prediction := 1;
                 Prediction.churn_probability := 0.8%float;
                 Prediction.will_churn := true;
                 Prediction.confidence := 0.8%float |}))%float = false.
Proof.
  apply (response_confidence_bounds sample_env sample_customer None loaded_globals
           (globals_after_prediction loaded_globals default_tester sample_env "v1"
              {| Prediction.model_version := "v1"; Prediction.prediction := 1;
                 Prediction.churn_probability := 0.8%float;
                 Prediction.will_churn := true;
                 Prediction.confidence := 0.8%float |})).
  - intros v predictor Hv. unfold loaded_globals in Hv. cbn [models] in Hv.
    apply lookup_insert_Some in Hv as [[_ <-]|[_ Hv]]; [now eexists _, _|].
    apply lookup_insert_Some in Hv as [[_ <-]|[_ Hv]]; [now eexists _, _|].
    now rewrite lookup_empty in Hv.
  - reflexivity.
Defined.
